(** * Premium calculator: underwriting, pricing and reserve adequacy

    A shallow embedding of the calculation core of the premium calculator
    ([underwriting_engine.py], [actuarial_calculator.py],
    [regulatory_engine.py]) and the properties its specification states.

    Numbers.  Python [float]s are embedded as exact rationals ([Q]); a
    decimal literal of the source is the rational it denotes.  Python
    [int]s are [Z].  Equality of computed rationals is [Qeq] ([==]).
    The rounding of doubles and their range faults (an [OverflowError] of
    a power, a square that underflows to zero) are outside the embedding:
    what a call computes is stated for the calls that return, and an
    equation between computed numbers is exact on the rationals.

    Faults.  A Python exception is a [Raise] in the [result] monad: a
    division is [py_div], which raises [ZeroDivisionError] on a zero
    divisor, and a subscript [d[k]] is [subscript], which raises
    [KeyError] on a missing key.

    Dictionaries.  A JSON object read with [.get(key, default)] is a
    record of optional fields; a rule table looked up by key is a
    [gmap]; a table that is iterated in file order is an association
    list.

    Text.  The human-readable risk-factor strings are f-strings over the
    values of the calculation; they are embedded as the constructor of
    [RiskFactor] naming the format together with its arguments. *)

From Stdlib Require Import ZArith QArith Qminmax Qpower Qabs Lia Lqa.
From stdpp Require Import base option gmap strings list.

Open Scope Q_scope.

(** ** Python primitives *)

Module Py.

Inductive exn : Type :=
| ZeroDivisionError
| KeyError
| ValueError.

Inductive result (A : Type) : Type :=
| Ok (a : A)
| Raise (e : exn).

Arguments Ok {A} a.
Arguments Raise {A} e.

#[export] Instance result_ret : MRet result := fun A a => Ok a.

#[export] Instance result_bind : MBind result := fun A B f m =>
  match m with
  | Ok a => f a
  | Raise e => Raise e
  end.

Definition is_ok {A} (r : result A) : bool :=
  match r with Ok _ => true | Raise _ => false end.

(** [x < y], [x <= y], [x == y] on floats, as booleans. *)
Definition Qleb (x y : Q) : bool := Qle_bool x y.
Definition Qltb (x y : Q) : bool := negb (Qle_bool y x).
Definition Qeqb (x y : Q) : bool := Qeq_bool x y.

(** [a / b]. *)
Definition py_div (a b : Q) : result Q :=
  if Qeqb b 0 then Raise ZeroDivisionError else Ok (a / b).

(** [min(a, b)] and [max(a, b)]: the first argument is kept unless the
    second is strictly better. *)
Definition py_min (a b : Q) : Q := if Qltb b a then b else a.
Definition py_max (a b : Q) : Q := if Qltb a b then b else a.

(** [d[k]]. *)
Definition subscript {K V} `{Countable K} (d : gmap K V) (k : K) : result V :=
  match d !! k with
  | Some v => Ok v
  | None => Raise KeyError
  end.

(** [range(n)]. *)
Definition range (n : Z) : list Z := map Z.of_nat (seq 0 (Z.to_nat n)).

(** [for x in l: s = body(s, x)], stopping at the first exception. *)
Fixpoint for_each {S A} (l : list A) (body : S -> A -> result S) (s : S)
  : result S :=
  match l with
  | [] => Ok s
  | x :: l' => s' ← body s x; for_each l' body s'
  end.

End Py.

Import Py.

(** ** underwriting_engine.py *)

Module UnderwritingEngine.

Inductive UnderwritingDecision : Type :=
| APPROVED_STANDARD
| APPROVED_SUBSTANDARD
| APPROVED_PREFERRED
| DECLINED
| POSTPONED.

(** An entry of a rule table: [{"multiplier": ..., "description": ...}]. *)
Record RiskFactorRule : Type := {
  multiplier : Q;
  description : string
}.

(** [data/underwriting_rules.json].  [medical_conditions] maps a category
    name to the conditions of the category, in file order. *)
Record UnderwritingRules : Type := {
  medical_conditions : list (string * gmap string RiskFactorRule);
  smoking : gmap string RiskFactorRule;
  alcohol : gmap string RiskFactorRule;
  hazardous_activities : gmap string RiskFactorRule;
  occupation_factors : gmap string RiskFactorRule;
  max_coverage_multiple : Q;
  max_benefit_percentage : Q;
  coverage_5m_plus_min_net_worth : Q;
  coverage_1m_plus_min_net_worth : Q
}.

Inductive BmiBand : Type :=
| Underweight
| Overweight
| ObeseClassI
| ObeseClassII
| ObeseClassIII.

(** The risk-factor descriptions, one constructor per f-string. *)
Inductive RiskFactor : Type :=
| MedicalCondition (condition : string) (m : Q)
| MedicalUnknownCondition (condition : string)
| BmiFactor (band : BmiBand) (bmi : Q)
| MedicalAgeAdjustment (adjustment : Q)
| Smoking (status : string) (m : Q)
| AlcoholUse (use : string) (m : Q)
| HazardousActivity (activity : string) (m : Q)
| OccupationFactor (title : string) (class : Z) (m : Q)
| AgeHazardousOccupation (adjustment : Q)
| CoverageExceedsIncomeLimit (multiple : Q)
| MonthlyBenefitExceedsIncome (percentage : Q)
| NetWorthBelowRequirement (min_net_worth : Q) (coverage : Z)
| HighDebtToIncome (debt_to_income : Q).

(** [applicant_data['medical_history']]; [mh_age] is its ['age'] key. *)
Record MedicalHistory : Type := {
  conditions : option (list string);
  height : option Q;
  weight : option Q;
  mh_age : option Z
}.

Record Lifestyle : Type := {
  smoking_status : option string;
  alcohol_use : option string;
  lf_hazardous_activities : option (list string)
}.

Record Occupation : Type := {
  occ_class : option Z;
  occ_title : option string
}.

Record FinancialInfo : Type := {
  annual_income : option Q;
  net_worth : option Q;
  total_debt : option Q
}.

Record ApplicantData : Type := {
  age : option Z;
  gender : option string;
  medical_history : option MedicalHistory;
  lifestyle : option Lifestyle;
  occupation : option Occupation;
  financial_info : option FinancialInfo
}.

(** The empty dictionaries that [.get(key, {})] falls back to. *)
Definition empty_medical_history : MedicalHistory :=
  {| conditions := None; height := None; weight := None; mh_age := None |}.
Definition empty_lifestyle : Lifestyle :=
  {| smoking_status := None; alcohol_use := None;
     lf_hazardous_activities := None |}.
Definition empty_occupation : Occupation :=
  {| occ_class := None; occ_title := None |}.
Definition empty_financial_info : FinancialInfo :=
  {| annual_income := None; net_worth := None; total_debt := None |}.

(** The result of an assessment (the generated notes text is left out). *)
Record RiskAssessment : Type := {
  overall_risk_multiplier : Q;
  medical_risk_multiplier : Q;
  lifestyle_risk_multiplier : Q;
  occupation_risk_multiplier : Q;
  financial_risk_score : Q;
  underwriting_decision : UnderwritingDecision;
  maximum_coverage : Z;
  risk_factors_identified : list RiskFactor
}.

Definition _calculate_bmi (weight_lbs height_inches : Q) : result Q :=
  if Qleb height_inches 0 then Ok 25
  else py_div (weight_lbs * 703) (height_inches ^ 2).

Definition _assess_bmi_risk (bmi : Q) : Q * option RiskFactor :=
  if Qltb bmi 18.5 then (1.2, Some (BmiFactor Underweight bmi))
  else if Qleb 18.5 bmi && Qltb bmi 25 then (1.0, None)
  else if Qleb 25 bmi && Qltb bmi 30 then (1.1, Some (BmiFactor Overweight bmi))
  else if Qleb 30 bmi && Qltb bmi 35 then (1.3, Some (BmiFactor ObeseClassI bmi))
  else if Qleb 35 bmi && Qltb bmi 40 then (2.0, Some (BmiFactor ObeseClassII bmi))
  else (3.0, Some (BmiFactor ObeseClassIII bmi)).

(** The BMI block of [_assess_medical_risk], once the BMI is known. *)
Definition with_bmi (acc : Q * list RiskFactor) (bmi : Q)
  : Q * list RiskFactor :=
  (fst acc * fst (_assess_bmi_risk bmi),
   match snd (_assess_bmi_risk bmi) with
   | Some f => snd acc ++ [f]
   | None => snd acc
   end).

(** The age block of [_assess_medical_risk]. *)
Definition with_age_adjustment (declared : list string) (age : Z)
    (acc : Q * list RiskFactor) : Q * list RiskFactor :=
  if (0 <? length declared)%nat && (60 <? age)%Z
  then (fst acc * 1.1, snd acc ++ [MedicalAgeAdjustment 1.1])
  else acc.

Definition _combine_risk_factors (medical_risk lifestyle_risk occupation_risk : Q)
  : Q :=
  let combined_risk := medical_risk * lifestyle_risk * occupation_risk in
  py_min combined_risk 10.0.

Definition _make_underwriting_decision (overall_risk financial_risk : Q)
    (coverage_amount : Z) (risk_factors : list RiskFactor)
  : UnderwritingDecision * Z :=
  if Qleb 3.0 financial_risk then (DECLINED, 0%Z)
  else if Qleb overall_risk 0.95 then (APPROVED_PREFERRED, coverage_amount)
  else if Qleb overall_risk 2.0 then
    if Qleb overall_risk 1.2 then (APPROVED_STANDARD, coverage_amount)
    else (APPROVED_SUBSTANDARD, Z.min coverage_amount 2000000)
  else if Qleb overall_risk 4.0 then
    (APPROVED_SUBSTANDARD, Z.min coverage_amount 500000)
  else (DECLINED, 0%Z).

Section Engine.

(** [self.underwriting_rules]. *)
Variable rules : UnderwritingRules.

(** The inner loop of [_assess_medical_risk]: the first category holding
    the condition wins. *)
Fixpoint find_condition (categories : list (string * gmap string RiskFactorRule))
    (condition : string) : option RiskFactorRule :=
  match categories with
  | [] => None
  | (_, category_data) :: rest =>
      match category_data !! condition with
      | Some condition_info => Some condition_info
      | None => find_condition rest condition
      end
  end.

(** The body of the loop over the declared conditions. *)
Definition medical_condition_step (acc : Q * list RiskFactor)
    (condition : string) : Q * list RiskFactor :=
  let '(medical_multiplier, risk_factors) := acc in
  match find_condition (medical_conditions rules) condition with
  | Some condition_info =>
      (medical_multiplier * multiplier condition_info,
       risk_factors ++ [MedicalCondition condition (multiplier condition_info)])
  | None =>
      (medical_multiplier * 1.5,
       risk_factors ++ [MedicalUnknownCondition condition])
  end.

Definition medical_conditions_loop (medical_conditions : list string)
  : Q * list RiskFactor :=
  fold_left medical_condition_step medical_conditions (1.0, []).

Definition _assess_medical_risk (medical_history : MedicalHistory)
  : result (Q * list RiskFactor) :=
  let medical_conditions := default [] (conditions medical_history) in
  let '(medical_multiplier, risk_factors) :=
    medical_conditions_loop medical_conditions in
  '(medical_multiplier, risk_factors) ←
    match height medical_history, weight medical_history with
    | Some h, Some w =>
        bmi ← _calculate_bmi w h;
        let '(bmi_multiplier, bmi_factor) := _assess_bmi_risk bmi in
        Ok (medical_multiplier * bmi_multiplier,
            match bmi_factor with
            | Some f => risk_factors ++ [f]
            | None => risk_factors
            end)
    | _, _ => Ok (medical_multiplier, risk_factors)
    end;
  let age := default 30%Z (mh_age medical_history) in
  if (0 <? length medical_conditions)%nat && (60 <? age)%Z then
    let age_adjustment := 1.1 in
    Ok (medical_multiplier * age_adjustment,
        risk_factors ++ [MedicalAgeAdjustment age_adjustment])
  else Ok (medical_multiplier, risk_factors).

Definition hazardous_activity_step (acc : Q * list RiskFactor)
    (activity : string) : Q * list RiskFactor :=
  let '(lifestyle_multiplier, risk_factors) := acc in
  match hazardous_activities rules !! activity with
  | Some rule =>
      let activity_mult := multiplier rule in
      (lifestyle_multiplier * activity_mult,
       risk_factors ++ [HazardousActivity activity activity_mult])
  | None => acc
  end.

Definition _assess_lifestyle_risk (lifestyle_info : Lifestyle)
  : Q * list RiskFactor :=
  let lifestyle_multiplier := 1.0 in
  let risk_factors := [] in
  let smoking_status :=
    default "non_smoker"%string (smoking_status lifestyle_info) in
  let '(lifestyle_multiplier, risk_factors) :=
    if negb (String.eqb smoking_status "non_smoker") then
      match smoking rules !! smoking_status with
      | Some rule =>
          let smoking_mult := multiplier rule in
          (lifestyle_multiplier * smoking_mult,
           risk_factors ++ [Smoking smoking_status smoking_mult])
      | None => (lifestyle_multiplier, risk_factors)
      end
    else (lifestyle_multiplier, risk_factors) in
  let alcohol_use :=
    default "moderate_use"%string (alcohol_use lifestyle_info) in
  let '(lifestyle_multiplier, risk_factors) :=
    match alcohol rules !! alcohol_use with
    | Some rule =>
        let alcohol_mult := multiplier rule in
        (lifestyle_multiplier * alcohol_mult,
         if Qltb 1.0 alcohol_mult
         then risk_factors ++ [AlcoholUse alcohol_use alcohol_mult]
         else risk_factors)
    | None => (lifestyle_multiplier, risk_factors)
    end in
  let hazardous := default [] (lf_hazardous_activities lifestyle_info) in
  fold_left hazardous_activity_step hazardous
    (lifestyle_multiplier, risk_factors).

Definition class_key (occupation_class : Z) : string :=
  if (occupation_class =? 1)%Z then "class_1_professional"
  else if (occupation_class =? 2)%Z then "class_2_standard"
  else if (occupation_class =? 3)%Z then "class_3_skilled"
  else if (occupation_class =? 4)%Z then "class_4_manual"
  else "class_5_hazardous".

Definition _assess_occupation_risk (occupation_info : Occupation) (age : Z)
  : Q * list RiskFactor :=
  let occupation_multiplier := 1.0 in
  let risk_factors := [] in
  let occupation_class := default 2%Z (occ_class occupation_info) in
  let occupation_title := default "Unknown"%string (occ_title occupation_info) in
  let '(occupation_multiplier, risk_factors) :=
    match occupation_factors rules !! class_key occupation_class with
    | Some rule =>
        let occupation_multiplier := multiplier rule in
        (occupation_multiplier,
         if negb (Qeqb occupation_multiplier 1.0)
         then risk_factors ++
              [OccupationFactor occupation_title occupation_class
                 occupation_multiplier]
         else risk_factors)
    | None => (occupation_multiplier, risk_factors)
    end in
  if (4 <=? occupation_class)%Z && (50 <? age)%Z then
    let age_occupation_adjustment := 1.2 in
    (occupation_multiplier * age_occupation_adjustment,
     risk_factors ++ [AgeHazardousOccupation age_occupation_adjustment])
  else (occupation_multiplier, risk_factors).

(** [_assess_financial_capacity] up to its debt-to-income block: the
    income-based coverage limit and the net-worth requirement. *)
Definition financial_limits (financial_info : FinancialInfo)
    (coverage_amount : Z) (product_type : string)
  : result (Q * list RiskFactor) :=
  let financial_risk_score := 1.0 in
  let risk_factors := [] in
  let annual_income := default 0 (annual_income financial_info) in
  let net_worth := default 0 (net_worth financial_info) in
  '(financial_risk_score, risk_factors) ←
    (if String.eqb product_type "term_life"
        || String.eqb product_type "whole_life" then
       let max_income_multiple := max_coverage_multiple rules in
       let max_coverage_by_income := annual_income * max_income_multiple in
       if Qltb max_coverage_by_income (inject_Z coverage_amount) then
         Ok (2.0, risk_factors ++ [CoverageExceedsIncomeLimit max_income_multiple])
       else Ok (financial_risk_score, risk_factors)
     else if String.eqb product_type "disability_income" then
       let max_benefit_pct := max_benefit_percentage rules in
       monthly_income ← py_div annual_income 12;
       let max_monthly_benefit := monthly_income * max_benefit_pct in
       let monthly_coverage := inject_Z coverage_amount in
       if Qltb max_monthly_benefit monthly_coverage then
         Ok (2.0,
             risk_factors ++ [MonthlyBenefitExceedsIncome (max_benefit_pct * 100)])
       else Ok (financial_risk_score, risk_factors)
     else Ok (financial_risk_score, risk_factors));
  if (1000000 <=? coverage_amount)%Z then
    if (5000000 <=? coverage_amount)%Z then
      let min_net_worth := coverage_5m_plus_min_net_worth rules in
      if Qltb net_worth min_net_worth then
        Ok (3.0,
            risk_factors ++ [NetWorthBelowRequirement min_net_worth coverage_amount])
      else Ok (financial_risk_score, risk_factors)
    else if (1000000 <=? coverage_amount)%Z then
      let min_net_worth := coverage_1m_plus_min_net_worth rules in
      if Qltb net_worth min_net_worth then
        Ok (2.0,
            risk_factors ++ [NetWorthBelowRequirement min_net_worth coverage_amount])
      else Ok (financial_risk_score, risk_factors)
    else Ok (financial_risk_score, risk_factors)
  else Ok (financial_risk_score, risk_factors).

Definition _assess_financial_capacity (financial_info : FinancialInfo)
    (coverage_amount : Z) (product_type : string)
  : result (Q * list RiskFactor) :=
  '(financial_risk_score, risk_factors) ←
    financial_limits financial_info coverage_amount product_type;
  let annual_income := default 0 (annual_income financial_info) in
  let total_debt := default 0 (total_debt financial_info) in
  if Qltb 0 annual_income then
    debt_to_income ← py_div total_debt annual_income;
    if Qltb 0.4 debt_to_income then
      Ok (financial_risk_score * 1.3,
          risk_factors ++ [HighDebtToIncome debt_to_income])
    else Ok (financial_risk_score, risk_factors)
  else Ok (financial_risk_score, risk_factors).

Definition perform_comprehensive_risk_assessment (applicant_data : ApplicantData)
    (product_type : string) (coverage_amount : Z) : result RiskAssessment :=
  let risk_factors_identified := [] in
  '(medical_risk, medical_factors) ←
    _assess_medical_risk
      (default empty_medical_history (medical_history applicant_data));
  let risk_factors_identified := risk_factors_identified ++ medical_factors in
  let '(lifestyle_risk, lifestyle_factors) :=
    _assess_lifestyle_risk (default empty_lifestyle (lifestyle applicant_data)) in
  let risk_factors_identified := risk_factors_identified ++ lifestyle_factors in
  let '(occupation_risk, occupation_factors) :=
    _assess_occupation_risk
      (default empty_occupation (occupation applicant_data))
      (default 30%Z (age applicant_data)) in
  let risk_factors_identified := risk_factors_identified ++ occupation_factors in
  '(financial_risk, financial_factors) ←
    _assess_financial_capacity
      (default empty_financial_info (financial_info applicant_data))
      coverage_amount product_type;
  let risk_factors_identified := risk_factors_identified ++ financial_factors in
  let overall_risk :=
    _combine_risk_factors medical_risk lifestyle_risk occupation_risk in
  let '(decision, max_coverage) :=
    _make_underwriting_decision overall_risk financial_risk coverage_amount
      risk_factors_identified in
  Ok {| overall_risk_multiplier := overall_risk;
        medical_risk_multiplier := medical_risk;
        lifestyle_risk_multiplier := lifestyle_risk;
        occupation_risk_multiplier := occupation_risk;
        financial_risk_score := financial_risk;
        underwriting_decision := decision;
        maximum_coverage := max_coverage;
        risk_factors_identified := risk_factors_identified |}.

End Engine.

End UnderwritingEngine.

(** ** actuarial_calculator.py *)

Module ActuarialCalculator.

Import UnderwritingEngine.

(** [data/mortality_tables.json]: [CSO_2017] maps a gender to the rates by
    age (the key [str(age)] is embedded as the age), and
    [discount_rate_standard] is [['discount_rates']['standard']]. *)
Record MortalityTables : Type := {
  CSO_2017 : gmap string (gmap Z Q);
  discount_rate_standard : Q
}.

(** A product of [data/product_definitions.json]; the bounds that only
    some products carry are optional keys. *)
Record Product : Type := {
  expense_load : Q;
  profit_margin : Q;
  commission : Q;
  min_age : Z;
  max_age : Z;
  min_coverage : option Z;
  max_coverage : option Z;
  terms : option (list Z);
  min_monthly_benefit : option Z;
  max_monthly_benefit : option Z
}.

Record ProductDefinitions : Type := {
  products : gmap string Product;
  reserve_factors : gmap string Q
}.

(** An occupation class of the disability tables: [rates] maps an age to
    the rates by gender, in file order. *)
Record OccupationClassData : Type := {
  occ_name : string;
  rates : list (Z * gmap string Q)
}.

(** [data/morbidity_tables.json]: [occupation_classes] is keyed by
    [str(occupation_class)]; [waiting_periods_disability] maps a tier to
    its [benefit_percentage]. *)
Record MorbidityTables : Type := {
  occupation_classes : gmap Z OccupationClassData;
  waiting_periods_disability : gmap string Q
}.

(** The [risk_factors] dictionary of a life pricing call. *)
Record RiskFactors : Type := {
  rf_medical_conditions : option (list string);
  rf_smoking_status : option string;
  rf_hazardous_activities : option (list string)
}.

Definition empty_risk_factors : RiskFactors :=
  {| rf_medical_conditions := None; rf_smoking_status := None;
     rf_hazardous_activities := None |}.

(** The string [benefit_period]: either ['to_age_65'], or a string whose
    first [_]-separated token is read by [int()] ([None] when [int()]
    rejects the token). *)
Inductive BenefitPeriod : Type :=
| to_age_65
| leading_token (years : option Z).

Inductive BreakdownValue : Type :=
| Num (x : Q)
| Int (n : Z)
| Text (s : string).

(** The quote (the explanation text is left out). *)
Record QuoteResult : Type := {
  gross_premium : Q;
  net_premium : Q;
  quote_expense_load : Q;
  quote_profit_margin : Q;
  quote_commission : Q;
  reserves : Q;
  risk_multiplier : Q;
  breakdown : list (string * BreakdownValue)
}.

(** [benefit_pv / premium_pv if premium_pv > 0 else 0], the net premium
    expression of both pricing calls. *)
Definition net_premium_of (benefit_pv premium_pv : Q) : result Q :=
  if Qltb 0 premium_pv then py_div benefit_pv premium_pv else Ok 0.

(** [cso_table.get(str(current_age), cso_table['80'])]: the fallback is
    evaluated before the lookup. *)
Definition cso_get (cso_table : gmap Z Q) (current_age : Z) : result Q :=
  fallback ← subscript cso_table 80%Z;
  Ok (default fallback (cso_table !! current_age)).

Section Calculator.

Variable mortality_tables : MortalityTables.
Variable morbidity_tables : MorbidityTables.
Variable underwriting_rules : UnderwritingRules.
Variable product_definitions : ProductDefinitions.

Definition mortality_cost_step (cso_table : gmap Z Q) (discount_rate : Q)
    (age : Z) (total_cost : Q) (year : Z) : result Q :=
  let current_age := Z.min (age + year) 80 in
  mortality_rate ← cso_get cso_table current_age;
  pv_factor ← py_div 1 ((1 + discount_rate) ^ year);
  Ok (total_cost + mortality_rate * pv_factor).

Definition _calculate_mortality_cost (age : Z) (gender : string) (term : Z)
  : result Q :=
  cso_table ← subscript (CSO_2017 mortality_tables) gender;
  let discount_rate := discount_rate_standard mortality_tables in
  for_each (range term) (mortality_cost_step cso_table discount_rate age) 0.0.

Definition _calculate_benefit_present_value (coverage : Z) (mortality_cost : Q)
    (age : Z) (gender : string) (term : Z) : Q :=
  inject_Z coverage * mortality_cost.

(** The loop state is [(pv_premiums, survival_prob)]. *)
Definition premium_pv_step (cso_table : gmap Z Q) (discount_rate : Q)
    (age : Z) (st : Q * Q) (year : Z) : result (Q * Q) :=
  let '(pv_premiums, survival_prob) := st in
  let current_age := Z.min (age + year) 80 in
  mortality_rate ← cso_get cso_table current_age;
  pv_factor ← py_div survival_prob ((1 + discount_rate) ^ year);
  Ok (pv_premiums + pv_factor, survival_prob * (1 - mortality_rate)).

Definition _calculate_premium_present_value (term : Z) (age : Z)
    (gender : string) : result Q :=
  let discount_rate := discount_rate_standard mortality_tables in
  cso_table ← subscript (CSO_2017 mortality_tables) gender;
  st ← for_each (range term) (premium_pv_step cso_table discount_rate age)
         (0.0, 1.0);
  Ok (fst st).

Definition disability_pv_step (annual_benefit : Z) (morbidity_rate : Q)
    (discount_rate : Q) (pv_benefits : Q) (year : Z) : result Q :=
  pv_factor ← py_div 1 ((1 + discount_rate) ^ year);
  Ok (pv_benefits + inject_Z annual_benefit * morbidity_rate * pv_factor).

Definition _calculate_disability_present_value (monthly_benefit : Z)
    (morbidity_rate : Q) (age : Z) (benefit_period : BenefitPeriod)
  : result Q :=
  let discount_rate := discount_rate_standard mortality_tables in
  years ←
    match benefit_period with
    | to_age_65 => Ok (Z.max (65 - age) 0)
    | leading_token (Some n) => Ok n
    | leading_token None => Raise ValueError
    end;
  let annual_benefit := (monthly_benefit * 12)%Z in
  for_each (range years)
    (disability_pv_step annual_benefit morbidity_rate discount_rate) 0.0.

(** [condition in d] for the category table. *)
Definition is_category_name (categories : list (string * gmap string RiskFactorRule))
    (condition : string) : bool :=
  existsb (fun entry => String.eqb condition (fst entry)) categories.

(** [for category in d.values(): if condition in category: ...; break]. *)
Fixpoint scan_categories (categories : list (string * gmap string RiskFactorRule))
    (condition : string) (multiplier : Q) : Q :=
  match categories with
  | [] => multiplier
  | (_, category) :: rest =>
      match category !! condition with
      | Some rule => multiplier * UnderwritingEngine.multiplier rule
      | None => scan_categories rest condition multiplier
      end
  end.

Definition risk_condition_step (multiplier : Q) (condition : string) : Q :=
  if is_category_name (medical_conditions underwriting_rules) condition then
    scan_categories (medical_conditions underwriting_rules) condition multiplier
  else multiplier.

Definition risk_activity_step (multiplier : Q) (activity : string) : Q :=
  match hazardous_activities underwriting_rules !! activity with
  | Some rule => multiplier * UnderwritingEngine.multiplier rule
  | None => multiplier
  end.

Definition _calculate_risk_multiplier (risk_factors : RiskFactors) : Q :=
  let multiplier := 1.0 in
  let multiplier :=
    match rf_medical_conditions risk_factors with
    | Some conditions => fold_left risk_condition_step conditions multiplier
    | None => multiplier
    end in
  let multiplier :=
    match rf_smoking_status risk_factors with
    | Some status =>
        match smoking underwriting_rules !! status with
        | Some rule => multiplier * UnderwritingEngine.multiplier rule
        | None => multiplier
        end
    | None => multiplier
    end in
  match rf_hazardous_activities risk_factors with
  | Some activities => fold_left risk_activity_step activities multiplier
  | None => multiplier
  end.

Definition _calculate_policy_reserves (coverage_amount : Z)
    (product_type : string) : Q :=
  let reserve_factor :=
    default 0.05 (reserve_factors product_definitions !! product_type) in
  inject_Z coverage_amount * reserve_factor.

Definition _get_waiting_period_adjustment (waiting_days : Z) : result Q :=
  let waiting_periods := waiting_periods_disability morbidity_tables in
  if (waiting_days <=? 30)%Z then subscript waiting_periods "30_days"%string
  else if (waiting_days <=? 90)%Z then subscript waiting_periods "90_days"%string
  else if (waiting_days <=? 180)%Z then subscript waiting_periods "180_days"%string
  else subscript waiting_periods "365_days"%string.

(** [min(ages, key=lambda x: abs(x - age))]: the first age at the least
    distance; [ValueError] on an empty table. *)
Fixpoint closest_from (age : Z) (best : Z) (ages : list Z) : Z :=
  match ages with
  | [] => best
  | x :: rest =>
      closest_from age
        (if (Z.abs (x - age) <? Z.abs (best - age))%Z then x else best) rest
  end.

Definition _find_closest_age (age : Z) (age_data : list (Z * gmap string Q))
  : result Z :=
  match map fst age_data with
  | [] => Raise ValueError
  | a :: ages => Ok (closest_from age a ages)
  end.

(** [age_data[str(closest_age)]]. *)
Fixpoint rates_at (age_data : list (Z * gmap string Q)) (a : Z)
  : result (gmap string Q) :=
  match age_data with
  | [] => Raise KeyError
  | (k, v) :: rest => if (k =? a)%Z then Ok v else rates_at rest a
  end.

(** The message of the coverage [ValueError] reads both bounds: building
    it raises [KeyError] on a product without [max_coverage]. *)
Definition _validate_life_insurance_inputs (age coverage term : Z)
    (product : Product) : result unit :=
  if (age <? min_age product)%Z || (max_age product <? age)%Z then
    Raise ValueError
  else
    match min_coverage product with
    | None => Raise KeyError
    | Some min_cov =>
        if (coverage <? min_cov)%Z then
          match max_coverage product with
          | None => Raise KeyError
          | Some _ => Raise ValueError
          end
        else
          match max_coverage product with
          | None => Raise KeyError
          | Some max_cov =>
              if (max_cov <? coverage)%Z then Raise ValueError
              else
                match terms product with
                | Some ts =>
                    if negb (existsb (Z.eqb term) ts) then Raise ValueError
                    else Ok tt
                | None => Ok tt
                end
          end
    end.

(** As for life: the message of the benefit [ValueError] reads both
    bounds. *)
Definition _validate_disability_inputs (age benefit occ_class : Z)
    (product : Product) : result unit :=
  if (age <? min_age product)%Z || (max_age product <? age)%Z then
    Raise ValueError
  else
    match min_monthly_benefit product with
    | None => Raise KeyError
    | Some min_benefit =>
        if (benefit <? min_benefit)%Z then
          match max_monthly_benefit product with
          | None => Raise KeyError
          | Some _ => Raise ValueError
          end
        else
          match max_monthly_benefit product with
          | None => Raise KeyError
          | Some max_benefit =>
              if (max_benefit <? benefit)%Z then Raise ValueError
              else
                match occupation_classes morbidity_tables !! occ_class with
                | None => Raise ValueError
                | Some _ => Ok tt
                end
          end
    end.

Definition calculate_life_insurance_premium (age : Z) (gender : string)
    (coverage_amount policy_term : Z) (product_type : string)
    (risk_factors : option RiskFactors) : result QuoteResult :=
  let risk_factors := default empty_risk_factors risk_factors in
  product ← subscript (products product_definitions) product_type;
  _ ← _validate_life_insurance_inputs age coverage_amount policy_term product;
  mortality_cost ← _calculate_mortality_cost age gender policy_term;
  let benefit_pv :=
    _calculate_benefit_present_value coverage_amount mortality_cost age gender
      policy_term in
  premium_pv ← _calculate_premium_present_value policy_term age gender;
  net_premium ← net_premium_of benefit_pv premium_pv;
  let risk_multiplier := _calculate_risk_multiplier risk_factors in
  let adjusted_net_premium := net_premium * risk_multiplier in
  let expense_load := expense_load product in
  let profit_margin := profit_margin product in
  let commission := commission product in
  let gross_premium :=
    adjusted_net_premium * (1 + expense_load + profit_margin + commission) in
  let reserves := _calculate_policy_reserves coverage_amount product_type in
  expense_loading ←
    py_div (gross_premium * expense_load)
      (1 + expense_load + profit_margin + commission);
  profit_loading ←
    py_div (gross_premium * profit_margin)
      (1 + expense_load + profit_margin + commission);
  commission_loading ←
    py_div (gross_premium * commission)
      (1 + expense_load + profit_margin + commission);
  let breakdown :=
    [("base_mortality_cost"%string, Num mortality_cost);
     ("net_premium"%string, Num net_premium);
     ("risk_adjustment"%string, Num risk_multiplier);
     ("adjusted_net_premium"%string, Num adjusted_net_premium);
     ("expense_loading"%string, Num expense_loading);
     ("profit_margin"%string, Num profit_loading);
     ("commission"%string, Num commission_loading);
     ("policy_reserves"%string, Num reserves);
     ("annual_premium"%string,
      Num (if String.eqb product_type "term_life"
           then gross_premium * 12 else gross_premium))] in
  Ok {| gross_premium := gross_premium;
        net_premium := net_premium;
        quote_expense_load := expense_load;
        quote_profit_margin := profit_margin;
        quote_commission := commission;
        reserves := reserves;
        risk_multiplier := risk_multiplier;
        breakdown := breakdown |}.

Definition calculate_disability_premium (age : Z) (gender : string)
    (occupation_class monthly_benefit : Z) (benefit_period : BenefitPeriod)
    (waiting_period : Z) : result QuoteResult :=
  product ← subscript (products product_definitions) "disability_income"%string;
  _ ← _validate_disability_inputs age monthly_benefit occupation_class product;
  occ_data ← subscript (occupation_classes morbidity_tables) occupation_class;
  closest_age ← _find_closest_age age (rates occ_data);
  by_gender ← rates_at (rates occ_data) closest_age;
  morbidity_rate ← subscript by_gender gender;
  benefit_pv ←
    _calculate_disability_present_value monthly_benefit morbidity_rate age
      benefit_period;
  premium_pv ← _calculate_premium_present_value (65 - age) age gender;
  net_premium ← net_premium_of benefit_pv premium_pv;
  benefit_percentage ← _get_waiting_period_adjustment waiting_period;
  let adjusted_net_premium := net_premium * benefit_percentage in
  let expense_load := expense_load product in
  let profit_margin := profit_margin product in
  let commission := commission product in
  let gross_premium :=
    adjusted_net_premium * (1 + expense_load + profit_margin + commission) in
  let reserves :=
    _calculate_policy_reserves (monthly_benefit * 12) "disability_income" in
  let breakdown :=
    [("base_morbidity_rate"%string, Num morbidity_rate);
     ("net_premium"%string, Num net_premium);
     ("waiting_period_adjustment"%string, Num benefit_percentage);
     ("adjusted_net_premium"%string, Num adjusted_net_premium);
     ("monthly_premium"%string, Num gross_premium);
     ("annual_premium"%string, Num (gross_premium * 12));
     ("occupation_class"%string, Int occupation_class);
     ("occupation_description"%string, Text (occ_name occ_data))] in
  Ok {| gross_premium := gross_premium;
        net_premium := net_premium;
        quote_expense_load := expense_load;
        quote_profit_margin := profit_margin;
        quote_commission := commission;
        reserves := reserves;
        risk_multiplier := 1.0;
        breakdown := breakdown |}.

End Calculator.

End ActuarialCalculator.

(** ** regulatory_engine.py *)

Module RegulatoryEngine.

Record ReserveCalculation : Type := {
  policy_reserves : Q;
  unearned_premium_reserves : Q;
  claims_reserves : Q;
  total_reserves : Q;
  solvency_margin : Q;
  risk_based_capital : Q;
  regulatory_requirements_met : bool
}.

Definition _check_reserve_adequacy (total_reserves solvency_margin rbc : Q)
  : bool :=
  Qleb (py_max solvency_margin rbc) total_reserves.

Section Engine.

(** A policy of the portfolio, and the helpers of the reserve calculation
    that depend on the calendar ([datetime]) or on [math.sqrt]: the
    per-policy reserves and the two capital requirements. *)
Variable Policy : Type.
Variable _calculate_policy_reserves : Policy -> Q.
Variable _calculate_unearned_premium_reserves : Policy -> Q.
Variable _calculate_claims_reserves : Policy -> Q.
Variable _calculate_solvency_margin : list Policy -> Q -> Q.
Variable _calculate_risk_based_capital : list Policy -> Q -> Q.

(** The three running totals of the loop over the portfolio. *)
Definition reserves_step (totals : Q * Q * Q) (policy : Policy) : Q * Q * Q :=
  let '(total_policy_reserves, total_unearned_premium, total_claims_reserves) :=
    totals in
  (total_policy_reserves + _calculate_policy_reserves policy,
   total_unearned_premium + _calculate_unearned_premium_reserves policy,
   total_claims_reserves + _calculate_claims_reserves policy).

Definition calculate_comprehensive_reserves (policy_portfolio : list Policy)
  : ReserveCalculation :=
  let '(total_policy_reserves, total_unearned_premium, total_claims_reserves) :=
    fold_left reserves_step policy_portfolio (0.0, 0.0, 0.0) in
  let total_reserves :=
    total_policy_reserves + total_unearned_premium + total_claims_reserves in
  let solvency_margin :=
    _calculate_solvency_margin policy_portfolio total_reserves in
  let risk_based_capital :=
    _calculate_risk_based_capital policy_portfolio total_reserves in
  let requirements_met :=
    _check_reserve_adequacy total_reserves solvency_margin risk_based_capital in
  {| policy_reserves := total_policy_reserves;
     unearned_premium_reserves := total_unearned_premium;
     claims_reserves := total_claims_reserves;
     total_reserves := total_reserves;
     solvency_margin := solvency_margin;
     risk_based_capital := risk_based_capital;
     regulatory_requirements_met := requirements_met |}.

End Engine.

End RegulatoryEngine.

(** ** The present values, as the specification words them *)

Module PresentValueSpec.

(** The mortality curve [q] of a table: the tabulated rate of an age, and
    the rate at 80 for an age the table does not hold. *)
Definition q (cso_table : gmap Z Q) (rate_at_80 : Q) (a : Z) : Q :=
  default rate_at_80 (cso_table !! a).

(** [sum_years f t] is the sum of [f y] for [y] from 0 to [t - 1]. *)
Fixpoint sum_years (f : nat -> Q) (t : nat) : Q :=
  match t with
  | O => 0
  | S t' => sum_years f t' + f t'
  end.

(** [(1 + r)^(-y)]. *)
Definition discount (r : Q) (y : nat) : Q := (1 + r) ^ (- Z.of_nat y).

(** [s_0 = 1] and [s_(y+1) = s_y * (1 - q(min(a + y, 80)))]. *)
Fixpoint survival (q : Z -> Q) (a : Z) (y : nat) : Q :=
  match y with
  | O => 1
  | S y' => survival q a y' * (1 - q (Z.min (a + Z.of_nat y') 80))
  end.

(** [coverage * sum over y < t of q(min(a + y, 80)) * (1 + r)^(-y)]. *)
Definition benefit_present_value (coverage : Z) (q : Z -> Q) (a : Z) (t : nat)
    (r : Q) : Q :=
  inject_Z coverage
  * sum_years (fun y => q (Z.min (a + Z.of_nat y) 80) * discount r y) t.

(** [sum over y < t of s_y * (1 + r)^(-y)]. *)
Definition annuity_present_value (q : Z -> Q) (a : Z) (t : nat) (r : Q) : Q :=
  sum_years (fun y => survival q a y * discount r y) t.

End PresentValueSpec.

(** ** Sample data

    Small tables and applicants on which the properties below are run.
    The tables are illustrative (the data files are configuration, not
    code); [sample_applicant] is the applicant of [product_manager.py]'s
    example, and the others have the shape [app.py] builds from a request:
    the age at the top level, and a medical history holding the
    conditions, the height and the weight. *)

Module Sample.

Import UnderwritingEngine ActuarialCalculator.

Definition rule (m : Q) : RiskFactorRule :=
  {| multiplier := m; description := "" |}.

Definition rules : UnderwritingRules :=
  {| medical_conditions :=
       [("cardiovascular"%string,
         {[ "hypertension_controlled"%string := rule 1.25;
            "heart_disease"%string := rule 3.0 ]});
        ("metabolic"%string,
         {[ "diabetes_type2"%string := rule 1.75 ]})];
     smoking := {[ "smoker"%string := rule 2.5 ]};
     alcohol := {[ "moderate_use"%string := rule 1.0;
                   "heavy_use"%string := rule 1.5 ]};
     hazardous_activities := {[ "skydiving"%string := rule 1.25 ]};
     occupation_factors :=
       {[ "class_1_professional"%string := rule 0.9;
          "class_2_standard"%string := rule 1.0;
          "class_4_manual"%string := rule 1.3 ]};
     max_coverage_multiple := 20;
     max_benefit_percentage := 0.6;
     coverage_5m_plus_min_net_worth := 1000000;
     coverage_1m_plus_min_net_worth := 250000 |}.

Definition sample_applicant : ApplicantData :=
  {| age := Some 35%Z;
     gender := Some "male"%string;
     medical_history :=
       Some {| conditions := Some ["hypertension_controlled"%string];
               height := Some 70; weight := Some 180; mh_age := None |};
     lifestyle :=
       Some {| smoking_status := Some "non_smoker"%string;
               alcohol_use := Some "moderate_use"%string;
               lf_hazardous_activities := Some [] |};
     occupation :=
       Some {| occ_class := Some 1%Z;
               occ_title := Some "Software Engineer"%string |};
     financial_info :=
       Some {| annual_income := Some 120000; net_worth := Some 300000;
               total_debt := Some 40000 |} |}.

(** A request for an applicant of the given age and conditions, with the
    defaults of [app.py] for the rest. *)
Definition request (applicant_age : Z) (declared : list string)
    (height_inches : Q) (income debt : Q) : ApplicantData :=
  {| age := Some applicant_age;
     gender := Some "male"%string;
     medical_history :=
       Some {| conditions := Some declared;
               height := Some height_inches; weight := Some 170;
               mh_age := None |};
     lifestyle :=
       Some {| smoking_status := Some "non_smoker"%string;
               alcohol_use := Some "moderate_use"%string;
               lf_hazardous_activities := Some [] |};
     occupation :=
       Some {| occ_class := Some 2%Z; occ_title := Some ""%string |};
     financial_info :=
       Some {| annual_income := Some income; net_worth := Some 200000;
               total_debt := Some debt |} |}.

Definition mortality_tables : MortalityTables :=
  {| CSO_2017 :=
       {[ "male"%string :=
            {[ 35%Z := 0.001; 36%Z := 0.0011; 37%Z := 0.0012; 80%Z := 0.05 ]} ]};
     discount_rate_standard := 0.035 |}.

Definition product_definitions : ProductDefinitions :=
  {| products :=
       {[ "term_life"%string :=
            {| expense_load := 0.15; profit_margin := 0.1; commission := 0.05;
               min_age := 18; max_age := 75;
               min_coverage := Some 50000%Z; max_coverage := Some 5000000%Z;
               terms := Some [0; 2; 10; 20; 30]%Z;
               min_monthly_benefit := None; max_monthly_benefit := None |};
          "disability_income"%string :=
            {| expense_load := 0.2; profit_margin := 0.1; commission := 0.1;
               min_age := 18; max_age := 64;
               min_coverage := None; max_coverage := None; terms := None;
               min_monthly_benefit := Some 500%Z;
               max_monthly_benefit := Some 15000%Z |} ]};
     reserve_factors := {[ "term_life"%string := 0.02 ]} |}.

Definition morbidity_tables : MorbidityTables :=
  {| occupation_classes :=
       {[ 2%Z := {| occ_name := "Standard";
                    rates := [(30%Z, {[ "male"%string := 0.003 ]});
                              (40%Z, {[ "male"%string := 0.005 ]})] |} ]};
     waiting_periods_disability :=
       {[ "30_days"%string := 1.0; "90_days"%string := 0.85;
          "180_days"%string := 0.7; "365_days"%string := 0.5 ]} |}.

End Sample.

(** ** regulatory_engine.py: standards, policy reserves and compliance *)

Module RegulatoryStandards.

Import RegulatoryEngine.

(** A policy of the portfolio, read with [.get(key, default)]. *)
Record Policy : Type := {
  product_type : option string;
  coverage_amount : option Q;
  remaining_years : option Z;
  current_age : option Z;
  policy_gender : option string;
  annual_premium : option Q
}.

(** [data/mortality_tables.json] as the regulatory engine reads it: every
    level is read with [.get] and may be missing. *)
Record ValuationTables : Type := {
  discount_rates_standard : option Q;
  valuation_CSO_2017 : option (gmap string (gmap Z Q))
}.

(** The tables of [_initialize_regulatory_standards]: the minimum reserve
    ratios are read with [.get(product_type, 0.05)]; the solvency margin
    rates (0.04, 0.08, 0.06), the maximum expense loading (0.30) and
    profit margin (0.15) are read by fixed keys and appear as constants
    where they are used. *)
Definition minimum_reserve_ratios : gmap string Q :=
  {[ "term_life"%string := 0.02; "whole_life"%string := 0.15;
     "disability_income"%string := 0.25; "critical_illness"%string := 0.10 ]}.

Definition maximum_risk_multiplier : Q := 10.0.

(** The table local to [_calculate_claims_reserves]. *)
Definition claims_reserve_factors : gmap string Q :=
  {[ "term_life"%string := 0.001; "whole_life"%string := 0.002;
     "disability_income"%string := 0.05; "critical_illness"%string := 0.01 ]}.

Section Valuation.

(** [self.mortality_tables]. *)
Variable tables : ValuationTables.

Definition valuation_discount_rate : Q :=
  default 0.035 (discount_rates_standard tables).

(** [self.mortality_tables.get('CSO_2017', {}).get(gender, {})]. *)
Definition valuation_mortality_table (gender : string) : gmap Z Q :=
  default ∅ (default ∅ (valuation_CSO_2017 tables) !! gender).

Definition future_benefits_step (product_type : string) (coverage_amount : Q)
    (mortality_table : gmap Z Q) (discount_rate : Q) (age : Z)
    (benefit_pv : Q) (year : Z) : result Q :=
  let current_age := Z.min (age + year) 80 in
  let mortality_rate := default 0.01 (mortality_table !! current_age) in
  pv_factor ← py_div 1 ((1 + discount_rate) ^ year);
  let benefit_pv := benefit_pv + coverage_amount * mortality_rate * pv_factor in
  if String.eqb product_type "critical_illness" then
    Ok (benefit_pv + coverage_amount * 0.002 * pv_factor)
  else Ok benefit_pv.

Definition _calculate_future_benefits_pv (policy : Policy) : result Q :=
  let product_type := default "term_life"%string (product_type policy) in
  let coverage_amount := default 0 (coverage_amount policy) in
  let remaining_years := default 10%Z (remaining_years policy) in
  let age := default 35%Z (current_age policy) in
  let gender := default "male"%string (policy_gender policy) in
  let discount_rate := valuation_discount_rate in
  let mortality_table := valuation_mortality_table gender in
  for_each (range remaining_years)
    (future_benefits_step product_type coverage_amount mortality_table
       discount_rate age) 0.0.

(** The loop state is [(premium_pv, survival_probability)]. *)
Definition future_premiums_step (annual_premium : Q)
    (mortality_table : gmap Z Q) (discount_rate : Q) (age : Z)
    (st : Q * Q) (year : Z) : result (Q * Q) :=
  let '(premium_pv, survival_probability) := st in
  let current_age := Z.min (age + year) 80 in
  let mortality_rate := default 0.01 (mortality_table !! current_age) in
  pv_factor ← py_div survival_probability ((1 + discount_rate) ^ year);
  Ok (premium_pv + annual_premium * pv_factor,
      survival_probability * (1 - mortality_rate)).

Definition _calculate_future_premiums_pv (policy : Policy) : result Q :=
  let annual_premium := default 0 (annual_premium policy) in
  let remaining_years := default 10%Z (remaining_years policy) in
  let age := default 35%Z (current_age policy) in
  let gender := default "male"%string (policy_gender policy) in
  let discount_rate := valuation_discount_rate in
  let mortality_table := valuation_mortality_table gender in
  st ← for_each (range remaining_years)
         (future_premiums_step annual_premium mortality_table discount_rate age)
         (0.0, 1.0);
  Ok (fst st).

Definition _calculate_policy_reserves (policy : Policy) : result Q :=
  let product_type := default "term_life"%string (product_type policy) in
  let coverage_amount := default 0 (coverage_amount policy) in
  let base_reserve_factor :=
    default 0.05 (minimum_reserve_ratios !! product_type) in
  future_benefits_pv ← _calculate_future_benefits_pv policy;
  future_premiums_pv ← _calculate_future_premiums_pv policy;
  Ok (py_max (future_benefits_pv - future_premiums_pv)
        (coverage_amount * base_reserve_factor)).

End Valuation.

Definition _calculate_claims_reserves (policy : Policy) : Q :=
  let coverage_amount := default 0 (coverage_amount policy) in
  let product_type := default "term_life"%string (product_type policy) in
  let reserve_factor := default 0.001 (claims_reserve_factors !! product_type) in
  coverage_amount * reserve_factor.

(** [d[k] += coverage], with [d[k] = 0] first when [k] is new; the
    dictionary keeps its insertion order. *)
Fixpoint add_liability (product_liabilities : list (string * Q))
    (product_type : string) (coverage : Q) : list (string * Q) :=
  match product_liabilities with
  | [] => [(product_type, 0 + coverage)]
  | (k, liability) :: rest =>
      if String.eqb k product_type then (k, liability + coverage) :: rest
      else (k, liability) :: add_liability rest product_type coverage
  end.

(** The margin rate of a product type, out of [solvency_margins]. *)
Definition margin_rate (product_type : string) : Q :=
  if String.eqb product_type "term_life"
     || String.eqb product_type "whole_life" then 0.04
  else if String.eqb product_type "disability_income" then 0.08
  else 0.06.

Definition _calculate_solvency_margin (policy_portfolio : list Policy)
    (total_reserves : Q) : Q :=
  let product_liabilities :=
    fold_left
      (fun d policy =>
         add_liability d (default "term_life"%string (product_type policy))
           (default 0 (coverage_amount policy)))
      policy_portfolio [] in
  fold_left
    (fun total_solvency_margin entry =>
       total_solvency_margin + snd entry * margin_rate (fst entry))
    product_liabilities 0.0.

(** [underwriting_decision] and [premium_structure], read with [.get]. *)
Record UnderwritingSummary : Type := {
  summary_overall_risk_multiplier : option Q;
  summary_coverage_amount : option Q
}.

Record PremiumStructure : Type := {
  structure_expense_load : option Q;
  structure_profit_margin : option Q
}.

Record RegulatoryCompliance : Type := {
  reserve_adequacy : bool;
  capital_adequacy : bool;
  pricing_compliance : bool;
  underwriting_compliance : bool;
  overall_compliance : bool;
  regulatory_notes : list string;
  required_actions : list string
}.

Definition _check_reserve_compliance (product_type : string)
    (reserve_calc : ReserveCalculation) : bool :=
  Qltb 0 (total_reserves reserve_calc)
  && regulatory_requirements_met reserve_calc.

Definition _check_capital_adequacy (reserve_calc : ReserveCalculation)
  : result bool :=
  let total_capital :=
    total_reserves reserve_calc + solvency_margin reserve_calc in
  if Qleb (risk_based_capital reserve_calc) 0 then Ok true
  else
    capital_ratio ← py_div total_capital (risk_based_capital reserve_calc);
    Ok (Qleb 2.0 capital_ratio).

Definition _check_pricing_compliance (product_type : string)
    (premium_structure : PremiumStructure) : bool :=
  let expense_load := default 0 (structure_expense_load premium_structure) in
  if Qltb 0.30 expense_load then false
  else
    let profit_margin := default 0 (structure_profit_margin premium_structure) in
    if Qltb 0.15 profit_margin then false
    else true.

Definition _check_underwriting_compliance
    (underwriting_decision : UnderwritingSummary) : bool :=
  let risk_multiplier :=
    default 1.0 (summary_overall_risk_multiplier underwriting_decision) in
  if Qltb maximum_risk_multiplier risk_multiplier then false
  else
    let coverage_amount :=
      default 0 (summary_coverage_amount underwriting_decision) in
    Qleb coverage_amount 10000000.

(** One check of [assess_regulatory_compliance]: a failed check appends
    its note and its required action. *)
Definition record_check (passed : bool) (note action : string)
    (lists : list string * list string) : list string * list string :=
  if negb passed then (fst lists ++ [note], snd lists ++ [action]) else lists.

Definition assess_regulatory_compliance (product_type : string)
    (premium_structure : PremiumStructure)
    (underwriting_decision : UnderwritingSummary)
    (reserve_calculation : ReserveCalculation) : result RegulatoryCompliance :=
  let lists := ([], []) in
  let reserve_adequate :=
    _check_reserve_compliance product_type reserve_calculation in
  let lists :=
    record_check reserve_adequate "Reserve levels below regulatory minimums"
      "Increase policy reserves to meet regulatory requirements" lists in
  capital_adequate ← _check_capital_adequacy reserve_calculation;
  let lists :=
    record_check capital_adequate
      "Capital levels insufficient for solvency requirements"
      "Increase capital or reduce risk exposure" lists in
  let pricing_compliant :=
    _check_pricing_compliance product_type premium_structure in
  let lists :=
    record_check pricing_compliant "Premium rates exceed regulatory maximums"
      "Reduce premium loadings to comply with rate regulations" lists in
  let underwriting_compliant :=
    _check_underwriting_compliance underwriting_decision in
  let lists :=
    record_check underwriting_compliant
      "Underwriting practices do not meet regulatory standards"
      "Review underwriting guidelines and risk assessment procedures" lists in
  let overall_compliant :=
    reserve_adequate && capital_adequate && pricing_compliant
    && underwriting_compliant in
  Ok {| reserve_adequacy := reserve_adequate;
        capital_adequacy := capital_adequate;
        pricing_compliance := pricing_compliant;
        underwriting_compliance := underwriting_compliant;
        overall_compliance := overall_compliant;
        regulatory_notes := fst lists;
        required_actions := snd lists |}.

End RegulatoryStandards.

(** ** product_manager.py *)

Module ProductManager.

Import UnderwritingEngine ActuarialCalculator.

(** A declined quote has the name ["Declined - ..."], the details
    [{'status': 'Application Declined'}] and the validity ['N/A']; an
    offer has the product's name, its policy details and an expiry date.
    These texts are left out and [Declined]/[Offered] tells the two
    apart. *)
Inductive QuoteStatus : Type :=
| Offered
| Declined.

Record ProductQuote : Type := {
  quote_product_type : string;
  quote_status : QuoteStatus;
  premium_quote : QuoteResult;
  risk_assessment : RiskAssessment
}.

(** A request of [generate_multi_product_quote]. *)
Record ProductRequest : Type := {
  request_type : option string;
  request_coverage_amount : option Z;
  request_policy_term : option Z;
  request_monthly_benefit : option Z;
  request_benefit_period : option BenefitPeriod;
  request_waiting_period : option Z
}.

(** [premium_quote.gross_premium *= m; premium_quote.risk_multiplier = m]:
    the other fields, the breakdown among them, stay as they are. *)
Definition apply_risk_adjustment (premium_quote : QuoteResult) (m : Q)
  : QuoteResult :=
  {| gross_premium := gross_premium premium_quote * m;
     net_premium := net_premium premium_quote;
     quote_expense_load := quote_expense_load premium_quote;
     quote_profit_margin := quote_profit_margin premium_quote;
     quote_commission := quote_commission premium_quote;
     reserves := reserves premium_quote;
     risk_multiplier := m;
     breakdown := breakdown premium_quote |}.

Section Manager.

(** The data files, shared by the manager, its calculator and its
    underwriter. *)
Variable mortality_tables : MortalityTables.
Variable morbidity_tables : MorbidityTables.
Variable underwriting_rules : UnderwritingRules.
Variable product_definitions : ProductDefinitions.

(** [morbidity_tables['critical_illness_tables']['conditions']]: a
    condition's rates by age (in file order) and gender; [None] when a
    level is missing. *)
Variable critical_illness_conditions
  : option (gmap string (list (Z * gmap string Q))).

(** [products['critical_illness']['covered_conditions']]. *)
Variable covered_conditions : option (list string).

Definition _create_declined_quote (product_type : string)
    (risk_assessment : RiskAssessment) : result ProductQuote :=
  let declined_quote :=
    {| gross_premium := 0.0; net_premium := 0.0;
       quote_expense_load := 0.0; quote_profit_margin := 0.0;
       quote_commission := 0.0; reserves := 0.0;
       risk_multiplier := overall_risk_multiplier risk_assessment;
       breakdown := [("status"%string, Text "declined")] |} in
  (* the product's name *)
  _ ← subscript (products product_definitions) product_type;
  Ok {| quote_product_type := product_type;
        quote_status := Declined;
        premium_quote := declined_quote;
        risk_assessment := risk_assessment |}.

Definition generate_life_insurance_quote (applicant_data : ApplicantData)
    (coverage_amount policy_term : Z) (product_type : string)
  : result ProductQuote :=
  risk_assessment ←
    perform_comprehensive_risk_assessment underwriting_rules applicant_data
      product_type coverage_amount;
  let approved_coverage :=
    Z.min coverage_amount (maximum_coverage risk_assessment) in
  if (approved_coverage =? 0)%Z then
    _create_declined_quote product_type risk_assessment
  else
    let age := default 30%Z (age applicant_data) in
    let gender := default "male"%string (gender applicant_data) in
    let risk_factors :=
      {| rf_medical_conditions :=
           Some (default []
                   (conditions
                      (default empty_medical_history
                         (medical_history applicant_data))));
         rf_smoking_status :=
           Some (default "non_smoker"%string
                   (smoking_status
                      (default empty_lifestyle (lifestyle applicant_data))));
         rf_hazardous_activities :=
           Some (default []
                   (lf_hazardous_activities
                      (default empty_lifestyle (lifestyle applicant_data)))) |} in
    premium_quote ←
      calculate_life_insurance_premium mortality_tables underwriting_rules
        product_definitions age gender approved_coverage policy_term
        product_type (Some risk_factors);
    let premium_quote :=
      apply_risk_adjustment premium_quote
        (overall_risk_multiplier risk_assessment) in
    (* the policy details and the product's name *)
    _ ← subscript (products product_definitions) product_type;
    Ok {| quote_product_type := product_type;
          quote_status := Offered;
          premium_quote := premium_quote;
          risk_assessment := risk_assessment |}.

Definition generate_disability_insurance_quote (applicant_data : ApplicantData)
    (monthly_benefit : Z) (benefit_period : BenefitPeriod) (waiting_period : Z)
  : result ProductQuote :=
  let product_type := "disability_income"%string in
  risk_assessment ←
    perform_comprehensive_risk_assessment underwriting_rules applicant_data
      product_type (monthly_benefit * 12);
  let approved_monthly_benefit :=
    Z.min monthly_benefit (maximum_coverage risk_assessment / 12) in
  if (approved_monthly_benefit =? 0)%Z then
    _create_declined_quote product_type risk_assessment
  else
    let age := default 30%Z (age applicant_data) in
    let gender := default "male"%string (gender applicant_data) in
    let occupation_class :=
      default 2%Z
        (occ_class (default empty_occupation (occupation applicant_data))) in
    premium_quote ←
      calculate_disability_premium mortality_tables morbidity_tables
        product_definitions age gender occupation_class
        approved_monthly_benefit benefit_period waiting_period;
    let premium_quote :=
      apply_risk_adjustment premium_quote
        (overall_risk_multiplier risk_assessment) in
    _ ← subscript (products product_definitions) "disability_income"%string;
    Ok {| quote_product_type := product_type;
          quote_status := Offered;
          premium_quote := premium_quote;
          risk_assessment := risk_assessment |}.

(** The loop over the covered conditions: a condition missing from the
    tables is skipped; a tabulated one must hold the age and the gender. *)
Definition condition_rate_step (conditions : gmap string (list (Z * gmap string Q)))
    (closest_age : Z) (gender : string) (total_morbidity_rate : Q)
    (condition : string) : result Q :=
  match conditions !! condition with
  | Some by_age =>
      by_gender ← rates_at by_age closest_age;
      condition_rate ← subscript by_gender gender;
      Ok (total_morbidity_rate + condition_rate)
  | None => Ok total_morbidity_rate
  end.

Definition critical_illness_pv_step (coverage_amount : Z)
    (total_morbidity_rate discount_rate : Q) (benefit_pv : Q) (year : Z)
  : result Q :=
  pv_factor ← py_div 1 ((1 + discount_rate) ^ year);
  Ok (benefit_pv + inject_Z coverage_amount * total_morbidity_rate * pv_factor).

(** The quote of [_calculate_critical_illness_premium]; the
    ['covered_conditions'] entry of its breakdown, a list of names, is
    left out. *)
Definition _calculate_critical_illness_premium (applicant_data : ApplicantData)
    (coverage_amount : Z) (risk_assessment : RiskAssessment)
  : result QuoteResult :=
  let age := default 30%Z (age applicant_data) in
  let gender := default "male"%string (gender applicant_data) in
  product ← subscript (products product_definitions) "critical_illness"%string;
  conditions ←
    match critical_illness_conditions with
    | Some conditions => Ok conditions
    | None => Raise KeyError
    end;
  cancer ← subscript conditions "cancer"%string;
  closest_age ← _find_closest_age age cancer;
  covered ←
    match covered_conditions with
    | Some covered => Ok covered
    | None => Raise KeyError
    end;
  total_morbidity_rate ←
    for_each covered (condition_rate_step conditions closest_age gender) 0.0;
  let discount_rate := discount_rate_standard mortality_tables in
  benefit_pv ←
    for_each (range 20)
      (critical_illness_pv_step coverage_amount total_morbidity_rate
         discount_rate) 0.0;
  premium_pv ← _calculate_premium_present_value mortality_tables 20 age gender;
  net_premium ← net_premium_of benefit_pv premium_pv;
  let expense_load := expense_load product in
  let profit_margin := profit_margin product in
  let commission := commission product in
  let gross_premium :=
    net_premium * (1 + expense_load + profit_margin + commission) in
  let gross_premium :=
    gross_premium * overall_risk_multiplier risk_assessment in
  reserve_factor ←
    subscript (reserve_factors product_definitions) "critical_illness"%string;
  let reserves := inject_Z coverage_amount * reserve_factor in
  let breakdown :=
    [("base_morbidity_rate"%string, Num total_morbidity_rate);
     ("net_premium"%string, Num net_premium);
     ("gross_premium"%string, Num gross_premium);
     ("annual_premium"%string, Num (gross_premium * 12));
     ("reserves"%string, Num reserves)] in
  Ok {| gross_premium := gross_premium;
        net_premium := net_premium;
        quote_expense_load := expense_load;
        quote_profit_margin := profit_margin;
        quote_commission := commission;
        reserves := reserves;
        risk_multiplier := overall_risk_multiplier risk_assessment;
        breakdown := breakdown |}.

Definition generate_critical_illness_quote (applicant_data : ApplicantData)
    (coverage_amount : Z) : result ProductQuote :=
  let product_type := "critical_illness"%string in
  risk_assessment ←
    perform_comprehensive_risk_assessment underwriting_rules applicant_data
      product_type coverage_amount;
  let approved_coverage :=
    Z.min coverage_amount (maximum_coverage risk_assessment) in
  if (approved_coverage =? 0)%Z then
    _create_declined_quote product_type risk_assessment
  else
    premium_quote ←
      _calculate_critical_illness_premium applicant_data approved_coverage
        risk_assessment;
    _ ← match covered_conditions with
        | Some _ => Ok tt
        | None => Raise KeyError
        end;
    _ ← subscript (products product_definitions) "critical_illness"%string;
    Ok {| quote_product_type := product_type;
          quote_status := Offered;
          premium_quote := premium_quote;
          risk_assessment := risk_assessment |}.

(** [d[key]] on a request. *)
Definition required {A} (field : option A) : result A :=
  match field with
  | Some v => Ok v
  | None => Raise KeyError
  end.

(** The [try] block of the loop of [generate_multi_product_quote]:
    [None] is the [continue] of an unknown product type. *)
Definition quote_for_request (applicant_data : ApplicantData)
    (product_type : string) (product_request : ProductRequest)
  : option (result ProductQuote) :=
  if String.eqb product_type "term_life"
     || String.eqb product_type "whole_life" then
    Some (coverage_amount ← required (request_coverage_amount product_request);
          generate_life_insurance_quote applicant_data coverage_amount
            (default 20%Z (request_policy_term product_request)) product_type)
  else if String.eqb product_type "disability_income" then
    Some (monthly_benefit ← required (request_monthly_benefit product_request);
          generate_disability_insurance_quote applicant_data monthly_benefit
            (default to_age_65 (request_benefit_period product_request))
            (default 90%Z (request_waiting_period product_request)))
  else if String.eqb product_type "critical_illness" then
    Some (coverage_amount ← required (request_coverage_amount product_request);
          generate_critical_illness_quote applicant_data coverage_amount)
  else None.

(** The loop body: the product type is read outside the [try]; inside,
    any exception is caught and the request is skipped. *)
Definition multi_quote_step (applicant_data : ApplicantData)
    (quotes : list ProductQuote) (product_request : ProductRequest)
  : result (list ProductQuote) :=
  product_type ← required (request_type product_request);
  match quote_for_request applicant_data product_type product_request with
  | Some (Ok quote) => Ok (quotes ++ [quote])
  | Some (Raise _) => Ok quotes
  | None => Ok quotes
  end.

Definition generate_multi_product_quote (applicant_data : ApplicantData)
    (requested_products : list ProductRequest) : result (list ProductQuote) :=
  for_each requested_products (multi_quote_step applicant_data) [].

End Manager.

End ProductManager.

(** ** Reading a product request *)

Module RequestReading.

Import UnderwritingEngine ActuarialCalculator ProductManager.

(** The quote that the loop of [generate_multi_product_quote] appends for
    a request: the quote its [try] block returns, and none for a request
    without a type, of an unknown product type, or whose [try] block
    raises. *)
Definition quote_of_request (tables : MortalityTables)
    (morbidity : MorbidityTables) (rules : UnderwritingRules)
    (definitions : ProductDefinitions)
    (ci_conditions : option (gmap string (list (Z * gmap string Q))))
    (covered : option (list string)) (applicant_data : ApplicantData)
    (product_request : ProductRequest) : option ProductQuote :=
  match request_type product_request with
  | Some product_type =>
      match quote_for_request tables morbidity rules definitions
              ci_conditions covered applicant_data product_type
              product_request with
      | Some (Ok quote) => Some quote
      | Some (Raise _) => None
      | None => None
      end
  | None => None
  end.

End RequestReading.

(** ** Reading a rule table *)

Module RuleTables.

Import UnderwritingEngine.

(** [activity in hazardous_rules]. *)
Definition listed_activity (rules : UnderwritingRules) (activity : string)
  : bool :=
  match hazardous_activities rules !! activity with
  | Some _ => true
  | None => false
  end.


End RuleTables.

(** ** Reading a quote *)

Module QuoteReading.

Import ActuarialCalculator.

(** [breakdown[key]] for a numeric entry ([0] when there is none). *)
Fixpoint breakdown_number (breakdown : list (string * BreakdownValue))
    (key : string) : Q :=
  match breakdown with
  | [] => 0
  | (k, v) :: rest =>
      if String.eqb k key then
        match v with
        | Num x => x
        | _ => 0
        end
      else breakdown_number rest key
  end.

(** The rates of a mortality table are probabilities. *)
Definition probability_table (cso_table : gmap Z Q) : Prop :=
  forall (a : Z) (rate : Q), cso_table !! a = Some rate -> 0 <= rate /\ rate <= 1.

(** The risk factors that [generate_life_insurance_quote] hands to the
    calculator. *)
Definition life_risk_factors (applicant_data : UnderwritingEngine.ApplicantData)
  : RiskFactors :=
  {| rf_medical_conditions :=
       Some (default []
               (UnderwritingEngine.conditions
                  (default UnderwritingEngine.empty_medical_history
                     (UnderwritingEngine.medical_history applicant_data))));
     rf_smoking_status :=
       Some (default "non_smoker"%string
               (UnderwritingEngine.smoking_status
                  (default UnderwritingEngine.empty_lifestyle
                     (UnderwritingEngine.lifestyle applicant_data))));
     rf_hazardous_activities :=
       Some (default []
               (UnderwritingEngine.lf_hazardous_activities
                  (default UnderwritingEngine.empty_lifestyle
                     (UnderwritingEngine.lifestyle applicant_data)))) |}.

End QuoteReading.

(** ** Reading a portfolio *)

Module PortfolioReading.

Import RegulatoryStandards.

(** The number of failed checks among four. *)
Definition failed_checks (a b c d : bool) : nat :=
  length (filter (fun passed => negb passed) [a; b; c; d]).

End PortfolioReading.


(** ** Sample data for critical illness *)

Module CriticalIllnessSample.

Import ActuarialCalculator.

Definition product_definitions : ProductDefinitions :=
  {| products :=
       {[ "critical_illness"%string :=
            {| expense_load := 0.2; profit_margin := 0.1; commission := 0.1;
               min_age := 18; max_age := 65;
               min_coverage := Some 10000%Z; max_coverage := Some 1000000%Z;
               terms := None;
               min_monthly_benefit := None; max_monthly_benefit := None |} ]};
     reserve_factors := {[ "critical_illness"%string := 0.1 ]} |}.

Definition conditions : gmap string (list (Z * gmap string Q)) :=
  {[ "cancer"%string :=
       [(30%Z, {[ "male"%string := 0.001 ]});
        (40%Z, {[ "male"%string := 0.002 ]})];
     "stroke"%string :=
       [(30%Z, {[ "male"%string := 0.0005 ]});
        (40%Z, {[ "male"%string := 0.001 ]})] ]}.

Definition covered_conditions : list string :=
  ["cancer"%string; "stroke"%string; "blindness"%string].

(** A flat mortality table without discounting. *)
Definition mortality_tables : MortalityTables :=
  {| CSO_2017 := {[ "male"%string := {[ 80%Z := 0.01 ]} ]};
     discount_rate_standard := 0 |}.

End CriticalIllnessSample.

(** * Properties *)

Import UnderwritingEngine ActuarialCalculator RegulatoryEngine.

(** ** Comparisons and faults *)

Lemma Qleb_spec (x y : Q) : reflect (x <= y) (Qleb x y).
Proof.
  unfold Qleb. destruct (Qle_bool x y) eqn:E; constructor.
  - now apply Qle_bool_iff.
  - intros H. apply Qle_bool_iff in H. congruence.
Qed.

Lemma Qltb_spec (x y : Q) : reflect (x < y) (Qltb x y).
Proof.
  unfold Qltb. destruct (Qle_bool y x) eqn:E; constructor; simpl.
  - apply Qle_bool_iff in E. now apply Qle_not_lt.
  - apply Qnot_le_lt. intros H. apply Qle_bool_iff in H. congruence.
Qed.

Lemma Qeqb_spec (x y : Q) : reflect (x == y) (Qeqb x y).
Proof.
  unfold Qeqb. destruct (Qeq_bool x y) eqn:E; constructor.
  - now apply Qeq_bool_iff.
  - intros H. apply Qeq_bool_iff in H. congruence.
Qed.

Lemma py_div_ok (a b : Q) : ~ b == 0 -> py_div a b = Ok (a / b).
Proof.
  intros Hb. unfold py_div. now destruct (Qeqb_spec b 0).
Qed.

Lemma py_div_zero (a b : Q) : b == 0 -> py_div a b = Raise ZeroDivisionError.
Proof.
  intros Hb. unfold py_div. now destruct (Qeqb_spec b 0).
Qed.

Lemma py_min_Qmin (a b : Q) : py_min a b == Qmin a b.
Proof.
  unfold py_min. destruct (Qltb_spec b a) as [H | H].
  - symmetry. apply Q.min_r. now apply Qlt_le_weak.
  - symmetry. apply Q.min_l. now apply Qnot_lt_le.
Qed.

Lemma py_max_Qmax (a b : Q) : py_max a b == Qmax a b.
Proof.
  unfold py_max. destruct (Qltb_spec a b) as [H | H].
  - symmetry. apply Q.max_r. now apply Qlt_le_weak.
  - symmetry. apply Q.max_l. now apply Qnot_lt_le.
Qed.

(** Case analysis on the comparisons of a decision function. *)
Ltac by_cases :=
  repeat match goal with
         | |- context [Qleb ?x ?y] => destruct (Qleb_spec x y)
         | |- context [Qltb ?x ?y] => destruct (Qltb_spec x y)
         end;
  simpl; try reflexivity; try lra.

(** ** The underwriting decision *)

(** C1.  The underwriting decision is a function of the financial risk
    score and the overall risk multiplier, read as a table whose first
    matching row wins: a financial risk of 3.0 or more is declined with
    maximum coverage 0 whatever the overall risk; below that, an overall
    risk up to 0.95 is approved preferred and up to 1.2 approved standard,
    both with the requested coverage; up to 2.0 it is approved
    substandard with the requested coverage capped at 2,000,000, up to
    4.0 approved substandard capped at 500,000, and above 4.0 declined
    with maximum coverage 0.  The maximum coverage of a (non-negative)
    requested coverage never exceeds it. *)
Theorem underwriting_decision_table
    (overall_risk financial_risk : Q) (coverage : Z)
    (risk_factors : list RiskFactor) :
  (3.0 <= financial_risk ->
   _make_underwriting_decision overall_risk financial_risk coverage risk_factors
   = (DECLINED, 0%Z)) /\
  (financial_risk < 3.0 -> overall_risk <= 0.95 ->
   _make_underwriting_decision overall_risk financial_risk coverage risk_factors
   = (APPROVED_PREFERRED, coverage)) /\
  (financial_risk < 3.0 -> 0.95 < overall_risk -> overall_risk <= 1.2 ->
   _make_underwriting_decision overall_risk financial_risk coverage risk_factors
   = (APPROVED_STANDARD, coverage)) /\
  (financial_risk < 3.0 -> 1.2 < overall_risk -> overall_risk <= 2.0 ->
   _make_underwriting_decision overall_risk financial_risk coverage risk_factors
   = (APPROVED_SUBSTANDARD, Z.min coverage 2000000)) /\
  (financial_risk < 3.0 -> 2.0 < overall_risk -> overall_risk <= 4.0 ->
   _make_underwriting_decision overall_risk financial_risk coverage risk_factors
   = (APPROVED_SUBSTANDARD, Z.min coverage 500000)) /\
  (financial_risk < 3.0 -> 4.0 < overall_risk ->
   _make_underwriting_decision overall_risk financial_risk coverage risk_factors
   = (DECLINED, 0%Z)) /\
  ((0 <= coverage)%Z ->
   (snd (_make_underwriting_decision overall_risk financial_risk coverage
           risk_factors) <= coverage)%Z).
Proof.
  unfold _make_underwriting_decision.
  repeat split; intros; by_cases; simpl; lia.
Qed.

(** At an overall risk of 1.5 and a financial score of 2.0 a request of
    3,000,000 is approved substandard for 2,000,000. *)
Lemma underwriting_decision_table_witness :
  _make_underwriting_decision 1.5 2.0 3000000 []
  = (APPROVED_SUBSTANDARD, 2000000%Z) /\
  (snd (_make_underwriting_decision 1.5 2.0 3000000 []) <= 3000000)%Z.
Proof.
  destruct (underwriting_decision_table 1.5 2.0 3000000 [])
    as (_ & _ & _ & Hsub & _ & _ & Hle).
  split.
  - apply Hsub; reflexivity || (intros H; discriminate H).
  - apply Hle. lia.
Defined.

(** ** Body-mass index *)

(** C7.  The BMI multiplier is a step function with the bands
    [<18.5] (1.2), [[18.5,25)] (1.0, no factor text), [[25,30)] (1.1),
    [[30,35)] (1.3), [[35,40)] (2.0) and [>=40] (3.0); a BMI of exactly 25
    is in the overweight band, multiplier 1.1. *)
Theorem bmi_bands (bmi : Q) :
  (bmi < 18.5 ->
   _assess_bmi_risk bmi = (1.2, Some (BmiFactor Underweight bmi))) /\
  (18.5 <= bmi -> bmi < 25 -> _assess_bmi_risk bmi = (1.0, None)) /\
  (25 <= bmi -> bmi < 30 ->
   _assess_bmi_risk bmi = (1.1, Some (BmiFactor Overweight bmi))) /\
  (30 <= bmi -> bmi < 35 ->
   _assess_bmi_risk bmi = (1.3, Some (BmiFactor ObeseClassI bmi))) /\
  (35 <= bmi -> bmi < 40 ->
   _assess_bmi_risk bmi = (2.0, Some (BmiFactor ObeseClassII bmi))) /\
  (40 <= bmi ->
   _assess_bmi_risk bmi = (3.0, Some (BmiFactor ObeseClassIII bmi))) /\
  _assess_bmi_risk 25.0 = (1.1, Some (BmiFactor Overweight 25.0)).
Proof.
  unfold _assess_bmi_risk.
  repeat split; intros; by_cases.
Qed.

(** One BMI in each band, the boundaries included. *)
Lemma bmi_bands_witness :
  fst (_assess_bmi_risk 18) = 1.2 /\
  fst (_assess_bmi_risk 18.5) = 1.0 /\
  fst (_assess_bmi_risk 25) = 1.1 /\
  fst (_assess_bmi_risk 30) = 1.3 /\
  fst (_assess_bmi_risk 35) = 2.0 /\
  fst (_assess_bmi_risk 40) = 3.0.
Proof.
  split; [|split; [|split; [|split; [|split]]]].
  - destruct (bmi_bands 18) as (H & _). rewrite H; reflexivity.
  - destruct (bmi_bands 18.5) as (_ & H & _).
    rewrite H; reflexivity || (intros E; discriminate E).
  - destruct (bmi_bands 25) as (_ & _ & H & _).
    rewrite H; reflexivity || (intros E; discriminate E).
  - destruct (bmi_bands 30) as (_ & _ & _ & H & _).
    rewrite H; reflexivity || (intros E; discriminate E).
  - destruct (bmi_bands 35) as (_ & _ & _ & _ & H & _).
    rewrite H; reflexivity || (intros E; discriminate E).
  - destruct (bmi_bands 40) as (_ & _ & _ & _ & _ & H & _).
    rewrite H; reflexivity || (intros E; discriminate E).
Defined.

(** ** The assessments on exact rationals *)

Lemma _calculate_bmi_spec (w h : Q) :
  _calculate_bmi w h = Ok (if Qleb h 0 then 25 else w * 703 / h ^ 2).
Proof.
  unfold _calculate_bmi. destruct (Qleb_spec h 0) as [Hle | Hgt]; [reflexivity|].
  apply py_div_ok. apply Qpower_not_0. lra.
Qed.

Lemma _assess_medical_risk_spec (rules : UnderwritingRules)
    (mh : MedicalHistory) :
  _assess_medical_risk rules mh =
  Ok (with_age_adjustment (default [] (conditions mh))
        (default 30%Z (mh_age mh))
        (match height mh, weight mh with
         | Some h, Some w =>
             with_bmi (medical_conditions_loop rules (default [] (conditions mh)))
               (if Qleb h 0 then 25 else w * 703 / h ^ 2)
         | _, _ => medical_conditions_loop rules (default [] (conditions mh))
         end)).
Proof.
  unfold _assess_medical_risk, with_age_adjustment, with_bmi.
  destruct (medical_conditions_loop rules (default [] (conditions mh)))
    as [m fs].
  destruct (height mh) as [h|], (weight mh) as [w|]; simpl;
    try rewrite _calculate_bmi_spec; simpl;
    try destruct (_assess_bmi_risk _) as [bm bf]; simpl;
    now destruct (_ && _).
Qed.

Lemma financial_limits_ok (rules : UnderwritingRules) (fin : FinancialInfo)
    (coverage : Z) (product_type : string) :
  exists score fs,
    financial_limits rules fin coverage product_type = Ok (score, fs) /\
    (score = 1.0 \/ score = 2.0 \/ score = 3.0) /\
    forall d, ~ In (HighDebtToIncome d) fs.
Proof.
  assert (Hnone : forall d, ~ In (HighDebtToIncome d) []) by (intros d []).
  assert (Hone : forall f d, (forall d', f <> HighDebtToIncome d') ->
                             ~ In (HighDebtToIncome d) ([] ++ [f])).
  { intros f d Hf [E | []]. exact (Hf d E). }
  assert (Htwo : forall f g d, (forall d', f <> HighDebtToIncome d') ->
                               (forall d', g <> HighDebtToIncome d') ->
                               ~ In (HighDebtToIncome d) (([] ++ [f]) ++ [g])).
  { intros f g d Hf Hg [E | [E | []]]; [exact (Hf d E) | exact (Hg d E)]. }
  unfold financial_limits.
  assert (H12 : py_div (default 0 (annual_income fin)) 12
                = Ok (default 0 (annual_income fin) / 12)).
  { apply py_div_ok. intros E; discriminate E. }
  rewrite H12. cbn [mbind result_bind].
  repeat match goal with
         | |- context [if ?b then _ else _] => destruct b; cbn [mbind result_bind]
         end;
    eexists _, _; (split; [reflexivity|]); (split; [tauto|]);
    first [ exact Hnone
          | intros d; apply Hone; discriminate
          | intros d; apply Htwo; discriminate ].
Qed.

Lemma _assess_financial_capacity_ok (rules : UnderwritingRules)
    (fin : FinancialInfo) (coverage : Z) (product_type : string) :
  exists score fs,
    _assess_financial_capacity rules fin coverage product_type = Ok (score, fs).
Proof.
  unfold _assess_financial_capacity.
  destruct (financial_limits_ok rules fin coverage product_type)
    as (score & fs & -> & _). cbn [mbind result_bind].
  destruct (Qltb_spec 0 (default 0 (annual_income fin))) as [Hpos | Hnpos].
  - rewrite py_div_ok by lra. cbn [mbind result_bind].
    destruct (Qltb _ _); eauto.
  - eauto.
Qed.

Lemma perform_comprehensive_risk_assessment_spec (rules : UnderwritingRules)
    (a : ApplicantData) (product_type : string) (coverage : Z) :
  exists medical_risk medical_factors financial_risk financial_factors,
    _assess_medical_risk rules
      (default empty_medical_history (medical_history a))
    = Ok (medical_risk, medical_factors) /\
    _assess_financial_capacity rules
      (default empty_financial_info (financial_info a)) coverage product_type
    = Ok (financial_risk, financial_factors) /\
    let lifestyle :=
      _assess_lifestyle_risk rules (default empty_lifestyle (lifestyle a)) in
    let occupation :=
      _assess_occupation_risk rules (default empty_occupation (occupation a))
        (default 30%Z (age a)) in
    let overall_risk :=
      _combine_risk_factors medical_risk (fst lifestyle) (fst occupation) in
    let factors :=
      (([] ++ medical_factors) ++ snd lifestyle) ++ snd occupation in
    let decision :=
      _make_underwriting_decision overall_risk financial_risk coverage
        (factors ++ financial_factors) in
    perform_comprehensive_risk_assessment rules a product_type coverage
    = Ok {| overall_risk_multiplier := overall_risk;
            medical_risk_multiplier := medical_risk;
            lifestyle_risk_multiplier := fst lifestyle;
            occupation_risk_multiplier := fst occupation;
            financial_risk_score := financial_risk;
            underwriting_decision := fst decision;
            maximum_coverage := snd decision;
            risk_factors_identified := factors ++ financial_factors |}.
Proof.
  unfold perform_comprehensive_risk_assessment.
  rewrite _assess_medical_risk_spec.
  destruct (_assess_financial_capacity_ok rules
              (default empty_financial_info (financial_info a))
              coverage product_type) as (fr & ff & ->).
  match goal with
  | |- context [Ok ?p ≫= _] => destruct p as [mr mf] eqn:Emed
  end.
  exists mr, mf, fr, ff. split; [reflexivity|]. split; [reflexivity|].
  cbn [mbind result_bind].
  destruct (_assess_lifestyle_risk _ _) as [lr lf].
  destruct (_assess_occupation_risk _ _ _) as [orisk ofs].
  cbn [mbind result_bind fst snd].
  now destruct (_make_underwriting_decision _ _ _ _).
Qed.

(** ** The overall risk multiplier *)



(** ** Height, income and age guards *)

(** C9.  When the medical history holds a height and a weight and the
    height is zero or negative, the BMI is the default 25 and no division
    takes place: the medical assessment returns, with the overweight
    multiplier 1.1 and its factor applied to the result of the conditions
    loop. *)
Theorem nonpositive_height_uses_default_bmi (rules : UnderwritingRules)
    (mh : MedicalHistory) (h w : Q) :
  height mh = Some h -> weight mh = Some w -> h <= 0 ->
  _calculate_bmi w h = Ok 25 /\
  _assess_bmi_risk 25 = (1.1, Some (BmiFactor Overweight 25)) /\
  _assess_medical_risk rules mh =
  Ok (with_age_adjustment (default [] (conditions mh))
        (default 30%Z (mh_age mh))
        (fst (medical_conditions_loop rules (default [] (conditions mh))) * 1.1,
         snd (medical_conditions_loop rules (default [] (conditions mh)))
         ++ [BmiFactor Overweight 25])).
Proof.
  intros Hh Hw Hle.
  assert (Hbmi : Qleb h 0 = true) by (now destruct (Qleb_spec h 0)).
  split; [|split].
  - rewrite _calculate_bmi_spec, Hbmi. reflexivity.
  - reflexivity.
  - rewrite _assess_medical_risk_spec, Hh, Hw, Hbmi. reflexivity.
Qed.

(** A request with height 0 and no condition: medical multiplier 1.1. *)
Lemma nonpositive_height_uses_default_bmi_witness :
  _assess_medical_risk Sample.rules
    {| conditions := Some []; height := Some 0; weight := Some 170;
       mh_age := None |}
  = Ok (1.0 * 1.1, [BmiFactor Overweight 25]).
Proof.
  destruct (nonpositive_height_uses_default_bmi Sample.rules
              {| conditions := Some []; height := Some 0; weight := Some 170;
                 mh_age := None |} 0 170) as (_ & _ & H).
  - reflexivity.
  - reflexivity.
  - intros E; discriminate E.
  - exact H.
Defined.

(** C10.  With an annual income of 0 the financial assessment returns
    without dividing the debt by the income: its result is that of the
    income and net-worth rules alone, so the score is 1.0, 2.0 or 3.0 and
    never carries the 1.3 debt factor, no debt-to-income factor is
    recorded, and the total debt has no influence at all. *)
Theorem zero_income_skips_debt_to_income (rules : UnderwritingRules)
    (fin : FinancialInfo) (coverage : Z) (product_type : string) :
  default 0 (annual_income fin) == 0 ->
  exists score fs,
    _assess_financial_capacity rules fin coverage product_type = Ok (score, fs) /\
    financial_limits rules fin coverage product_type = Ok (score, fs) /\
    (score = 1.0 \/ score = 2.0 \/ score = 3.0) /\
    (forall d, ~ In (HighDebtToIncome d) fs) /\
    (forall fin' : FinancialInfo,
       annual_income fin' = annual_income fin ->
       net_worth fin' = net_worth fin ->
       _assess_financial_capacity rules fin' coverage product_type
       = Ok (score, fs)).
Proof.
  intros Hzero.
  destruct (financial_limits_ok rules fin coverage product_type)
    as (score & fs & Hlim & Hscore & Hfs).
  assert (Hskip : forall fin' : FinancialInfo,
            annual_income fin' = annual_income fin ->
            net_worth fin' = net_worth fin ->
            _assess_financial_capacity rules fin' coverage product_type
            = Ok (score, fs)).
  { intros fin' Hi Hn. unfold _assess_financial_capacity.
    assert (Hlim' : financial_limits rules fin' coverage product_type
                    = Ok (score, fs)).
    { rewrite <- Hlim. unfold financial_limits. now rewrite Hi, Hn. }
    rewrite Hlim'. cbn [mbind result_bind]. rewrite Hi.
    destruct (Qltb_spec 0 (default 0 (annual_income fin))); [lra | reflexivity]. }
  exists score, fs. repeat split; auto.
Qed.

(** A request with income 0 and a debt of 50,000: score 2.0 (the coverage
    exceeds the income limit), not 2.6. *)
Lemma zero_income_skips_debt_to_income_witness :
  _assess_financial_capacity Sample.rules
    {| annual_income := Some 0; net_worth := Some 200000;
       total_debt := Some 50000 |} 500000 "term_life"
  = Ok (2.0, [CoverageExceedsIncomeLimit 20]).
Proof.
  destruct (zero_income_skips_debt_to_income Sample.rules
              {| annual_income := Some 0; net_worth := Some 200000;
                 total_debt := Some 50000 |} 500000 "term_life")
    as (score & fs & Hcap & Hlim & _).
  - reflexivity.
  - vm_compute in Hlim. injection Hlim as <- <-. exact Hcap.
Defined.

(** C4.  The age adjustment of the medical assessment reads the age from
    the medical history (default 30), not from the applicant: a request
    for a 70-year-old with controlled hypertension, shaped as [app.py]
    builds it, gets the medical multiplier 1.25 of the condition alone,
    without the 1.1 age factor and without its risk-factor text; the
    factor appears only when the medical history itself carries the
    age. *)
Theorem medical_age_adjustment_misses_applicant_age :
  (exists ra,
     perform_comprehensive_risk_assessment Sample.rules
       (Sample.request 70 ["hypertension_controlled"%string] 70 100000 20000)
       "term_life" 500000 = Ok ra /\
     medical_risk_multiplier ra == 1.25 /\
     ~ medical_risk_multiplier ra == 1.25 * 1.1 /\
     ~ In (MedicalAgeAdjustment 1.1) (risk_factors_identified ra)) /\
  (exists m fs,
     _assess_medical_risk Sample.rules
       {| conditions := Some ["hypertension_controlled"%string];
          height := Some 70; weight := Some 170; mh_age := Some 70%Z |}
     = Ok (m, fs) /\
     m == 1.25 * 1.1 /\ In (MedicalAgeAdjustment 1.1) fs).
Proof.
  split.
  - eexists. split; [vm_compute; reflexivity|]. cbn.
    split; [reflexivity|]. split; [intros E; discriminate E|].
    intros Hin. cbv [In] in Hin. intuition discriminate.
  - eexists _, _. split; [vm_compute; reflexivity|].
    split; [reflexivity|]. right. left. reflexivity.
Qed.

(** The medical multiplier of an assessment does not depend on the
    applicant's age. *)
Lemma medical_risk_ignores_applicant_age (rules : UnderwritingRules)
    (a a' : ApplicantData) (product_type : string) (coverage : Z) :
  medical_history a = medical_history a' ->
  exists ra ra',
    perform_comprehensive_risk_assessment rules a product_type coverage = Ok ra /\
    perform_comprehensive_risk_assessment rules a' product_type coverage = Ok ra' /\
    medical_risk_multiplier ra = medical_risk_multiplier ra'.
Proof.
  intros Hmh.
  destruct (perform_comprehensive_risk_assessment_spec rules a product_type
              coverage) as (mr & mf & fr & ff & Hmed & _ & ->).
  destruct (perform_comprehensive_risk_assessment_spec rules a' product_type
              coverage) as (mr' & mf' & fr' & ff' & Hmed' & _ & ->).
  eexists _, _. split; [reflexivity|]. split; [reflexivity|]. cbn.
  rewrite <- Hmh, Hmed in Hmed'. now injection Hmed' as <- <-.
Qed.

(** ** Unrecognised medical conditions *)

Lemma find_condition_none (categories : list (string * gmap string RiskFactorRule))
    (c : string) :
  Forall (fun category => snd category !! c = None) categories ->
  find_condition categories c = None.
Proof.
  induction 1 as [| [name category] rest Hc _ IH]; simpl in *.
  - reflexivity.
  - now rewrite Hc.
Qed.

Lemma scan_categories_none (categories : list (string * gmap string RiskFactorRule))
    (c : string) (m : Q) :
  Forall (fun category => snd category !! c = None) categories ->
  scan_categories categories c m = m.
Proof.
  induction 1 as [| [name category] rest Hc _ IH]; simpl in *.
  - reflexivity.
  - now rewrite Hc.
Qed.

(** The conditions loop scales with its starting multiplier. *)
Lemma medical_conditions_fold_scale (rules : UnderwritingRules)
    (declared : list string) (m : Q) (fs : list RiskFactor) :
  fst (fold_left (medical_condition_step rules) declared (m, fs))
  == m * fst (fold_left (medical_condition_step rules) declared (1.0, [])).
Proof.
  revert m fs.
  induction declared as [| c rest IH]; intros m fs; simpl.
  - ring.
  - destruct (find_condition (medical_conditions rules) c) as [info|];
      rewrite IH; symmetry; rewrite IH; ring.
Qed.

(** C3, as the code has it.  A declared condition found in no category of
    the rule table multiplies the medical multiplier of the underwriting
    assessment by the conservative 1.5 and is recorded as an unknown
    condition; the premium calculator's risk multiplier leaves such a
    condition out: it is the multiplier of the other conditions. *)
Theorem unrecognised_condition_rating (rules : UnderwritingRules) (c : string) :
  Forall (fun category => snd category !! c = None) (medical_conditions rules) ->
  (forall (m : Q) (fs : list RiskFactor),
     medical_condition_step rules (m, fs) c
     = (m * 1.5, fs ++ [MedicalUnknownCondition c])) /\
  (forall before after : list string,
     fst (medical_conditions_loop rules (before ++ c :: after))
     == 1.5 * fst (medical_conditions_loop rules (before ++ after))) /\
  (forall m : Q, risk_condition_step rules m c = m) /\
  (forall (rf rf' : RiskFactors) (before after : list string),
     rf_medical_conditions rf = Some (before ++ c :: after) ->
     rf_medical_conditions rf' = Some (before ++ after) ->
     rf_smoking_status rf' = rf_smoking_status rf ->
     rf_hazardous_activities rf' = rf_hazardous_activities rf ->
     _calculate_risk_multiplier rules rf = _calculate_risk_multiplier rules rf').
Proof.
  intros Hnone.
  assert (Hstep : forall (m : Q) (fs : list RiskFactor),
            medical_condition_step rules (m, fs) c
            = (m * 1.5, fs ++ [MedicalUnknownCondition c])).
  { intros m fs. unfold medical_condition_step.
    now rewrite (find_condition_none _ _ Hnone). }
  assert (Hcalc : forall m : Q, risk_condition_step rules m c = m).
  { intros m. unfold risk_condition_step.
    destruct (is_category_name _ _); [|reflexivity].
    now apply scan_categories_none. }
  split; [exact Hstep|]. split; [|split; [exact Hcalc|]].
  - intros before after. unfold medical_conditions_loop.
    rewrite !fold_left_app. simpl.
    destruct (fold_left (medical_condition_step rules) before (1.0, []))
      as [mb fb].
    rewrite Hstep.
    rewrite medical_conditions_fold_scale.
    rewrite (medical_conditions_fold_scale rules after mb fb). ring.
  - intros rf rf' before after Hrf Hrf' Hs Hh.
    unfold _calculate_risk_multiplier.
    rewrite Hrf, Hrf', Hs, Hh, !fold_left_app. simpl. now rewrite Hcalc.
Qed.

(** The condition ["unlisted"] is in no category of the sample rules: the
    assessment rates it 1.5, the calculator leaves it out. *)
Lemma unrecognised_condition_rating_witness :
  fst (medical_conditions_loop Sample.rules
         (["hypertension_controlled"%string] ++ ["unlisted"%string]))
  == 1.5 * 1.25 /\
  _calculate_risk_multiplier Sample.rules
    {| rf_medical_conditions := Some ([] ++ "unlisted"%string :: []);
       rf_smoking_status := None; rf_hazardous_activities := None |}
  = _calculate_risk_multiplier Sample.rules
      {| rf_medical_conditions := Some ([] ++ []);
         rf_smoking_status := None; rf_hazardous_activities := None |}.
Proof.
  destruct (unrecognised_condition_rating Sample.rules "unlisted")
    as (_ & Hloop & _ & Hcalc).
  - repeat constructor.
  - split.
    + rewrite (Hloop ["hypertension_controlled"%string] []). reflexivity.
    + now apply (Hcalc _ _ [] []).
Defined.

(** C3, as stated, fails in the premium calculator: a life pricing call
    whose risk factors declare the unlisted condition has risk multiplier
    1.0, not 1.5. *)
Lemma calculator_ignores_unrecognised_condition :
  Forall (fun category => snd category !! "unlisted"%string = None)
    (medical_conditions Sample.rules) /\
  _calculate_risk_multiplier Sample.rules
    {| rf_medical_conditions := Some ["unlisted"%string];
       rf_smoking_status := Some "non_smoker"%string;
       rf_hazardous_activities := Some [] |} = 1.0 /\
  ~ _calculate_risk_multiplier Sample.rules
      {| rf_medical_conditions := Some ["unlisted"%string];
         rf_smoking_status := Some "non_smoker"%string;
         rf_hazardous_activities := Some [] |} == 1.0 * 1.5.
Proof.
  split; [repeat constructor|].
  split; [reflexivity|]. intros E; discriminate E.
Qed.

(** ** Reserve adequacy *)

(** C8.  For every portfolio the reserve calculation reports the
    regulatory requirements as met exactly when the total reserves are at
    least the larger of the solvency margin and the risk-based capital;
    the boundary is inclusive. *)
Theorem reserve_adequacy_iff (Policy : Type)
    (policy_reserves_of unearned_of claims_of : Policy -> Q)
    (solvency_of rbc_of : list Policy -> Q -> Q) (portfolio : list Policy) :
  (regulatory_requirements_met
     (calculate_comprehensive_reserves Policy policy_reserves_of unearned_of
        claims_of solvency_of rbc_of portfolio) = true
   <->
   Qmax (solvency_margin
           (calculate_comprehensive_reserves Policy policy_reserves_of
              unearned_of claims_of solvency_of rbc_of portfolio))
        (risk_based_capital
           (calculate_comprehensive_reserves Policy policy_reserves_of
              unearned_of claims_of solvency_of rbc_of portfolio))
   <= total_reserves
        (calculate_comprehensive_reserves Policy policy_reserves_of
           unearned_of claims_of solvency_of rbc_of portfolio)) /\
  (total_reserves
     (calculate_comprehensive_reserves Policy policy_reserves_of unearned_of
        claims_of solvency_of rbc_of portfolio)
   == Qmax (solvency_margin
              (calculate_comprehensive_reserves Policy policy_reserves_of
                 unearned_of claims_of solvency_of rbc_of portfolio))
           (risk_based_capital
              (calculate_comprehensive_reserves Policy policy_reserves_of
                 unearned_of claims_of solvency_of rbc_of portfolio)) ->
   regulatory_requirements_met
     (calculate_comprehensive_reserves Policy policy_reserves_of unearned_of
        claims_of solvency_of rbc_of portfolio) = true).
Proof.
  unfold calculate_comprehensive_reserves.
  destruct (fold_left _ portfolio _) as [[p u] c]. cbn.
  unfold _check_reserve_adequacy.
  assert (Hiff : forall t s r : Q,
            Qleb (py_max s r) t = true <-> Qmax s r <= t).
  { intros t s r. rewrite <- py_max_Qmax.
    destruct (Qleb_spec (py_max s r) t); split; auto; intros; congruence. }
  split.
  - apply Hiff.
  - intros Heq. apply Hiff. apply Qle_lteq. right. now symmetry.
Qed.

(** A portfolio of two coverages whose total reserves, 40 + 20, are
    exactly the solvency margin, the larger requirement. *)
Lemma reserve_adequacy_iff_witness :
  regulatory_requirements_met
    (calculate_comprehensive_reserves Q
       (fun coverage => coverage * 0.04) (fun _ => 0) (fun _ => 0)
       (fun _ total => 60) (fun _ total => total * 0.5)
       [1000; 500]) = true.
Proof.
  apply (proj2 (reserve_adequacy_iff Q
                  (fun coverage => coverage * 0.04) (fun _ => 0) (fun _ => 0)
                  (fun _ total => 60) (fun _ total => total * 0.5)
                  [1000; 500])).
  reflexivity.
Defined.

(** ** Present values *)

Import PresentValueSpec.

Lemma for_each_app {S A} (l1 l2 : list A) (body : S -> A -> result S) (s : S) :
  for_each (l1 ++ l2) body s = for_each l1 body s ≫= for_each l2 body.
Proof.
  revert s. induction l1 as [| x l1 IH]; intros s; simpl.
  - reflexivity.
  - destruct (body s x) as [s' | e]; simpl; [apply IH | reflexivity].
Qed.

Lemma range_succ (n : nat) :
  range (Z.of_nat (S n)) = range (Z.of_nat n) ++ [Z.of_nat n].
Proof.
  unfold range. rewrite !Nat2Z.id, seq_S, map_app. reflexivity.
Qed.

Lemma range_to_nat (term : Z) : range term = range (Z.of_nat (Z.to_nat term)).
Proof.
  unfold range. now rewrite Nat2Z.id.
Qed.

Lemma cso_get_q (cso_table : gmap Z Q) (rate_at_80 : Q) (a : Z) :
  cso_table !! 80%Z = Some rate_at_80 ->
  cso_get cso_table a = Ok (q cso_table rate_at_80 a).
Proof.
  intros H80. unfold cso_get, subscript, q. now rewrite H80.
Qed.

Lemma pv_factor_discount (s r : Q) (y : nat) :
  ~ 1 + r == 0 ->
  py_div s ((1 + r) ^ Z.of_nat y) = Ok (s / (1 + r) ^ Z.of_nat y) /\
  s / (1 + r) ^ Z.of_nat y == s * discount r y.
Proof.
  intros Hr. split.
  - apply py_div_ok. now apply Qpower_not_0.
  - unfold discount, Qdiv. now rewrite Qpower_opp.
Qed.

Lemma mortality_cost_loop (cso_table : gmap Z Q) (rate_at_80 r : Q) (a : Z)
    (n : nat) :
  cso_table !! 80%Z = Some rate_at_80 -> ~ 1 + r == 0 ->
  exists total,
    for_each (range (Z.of_nat n)) (mortality_cost_step cso_table r a) 0.0
    = Ok total /\
    total == sum_years
               (fun y => q cso_table rate_at_80 (Z.min (a + Z.of_nat y) 80)
                         * discount r y) n.
Proof.
  intros H80 Hr. induction n as [| n (total & Hloop & Htotal)].
  - exists 0.0. split; reflexivity.
  - rewrite range_succ, for_each_app, Hloop. cbn [mbind result_bind for_each].
    unfold mortality_cost_step.
    rewrite (cso_get_q _ _ _ H80). cbn [mbind result_bind].
    destruct (pv_factor_discount 1 r n Hr) as (-> & Hpv).
    cbn [mbind result_bind]. eexists. split; [reflexivity|].
    cbn [sum_years]. rewrite Htotal, Hpv. ring.
Qed.

Lemma premium_pv_loop (cso_table : gmap Z Q) (rate_at_80 r : Q) (a : Z)
    (n : nat) :
  cso_table !! 80%Z = Some rate_at_80 -> ~ 1 + r == 0 ->
  exists pv_premiums survival_prob,
    for_each (range (Z.of_nat n)) (premium_pv_step cso_table r a) (0.0, 1.0)
    = Ok (pv_premiums, survival_prob) /\
    pv_premiums == annuity_present_value (q cso_table rate_at_80) a n r /\
    survival_prob == survival (q cso_table rate_at_80) a n.
Proof.
  intros H80 Hr. unfold annuity_present_value.
  induction n as [| n (pv & sp & Hloop & Hpv & Hsp)].
  - exists 0.0, 1.0. repeat split; reflexivity.
  - rewrite range_succ, for_each_app, Hloop. cbn [mbind result_bind for_each].
    unfold premium_pv_step.
    rewrite (cso_get_q _ _ _ H80). cbn [mbind result_bind].
    destruct (pv_factor_discount sp r n Hr) as (-> & Hfac).
    cbn [mbind result_bind]. eexists _, _. split; [reflexivity|].
    cbn [sum_years survival]. split.
    + rewrite Hpv, Hfac, Hsp. ring.
    + rewrite Hsp. ring.
Qed.

(** C6.  With the mortality curve [q] of the gender's table and the
    discount rate [r], a life benefit present value that is returned is
    the coverage times the sum over the years of
    [q(min(a + y, 80)) * (1 + r)^(-y)], each year's mortality cost on its
    own, while a premium-annuity present value that is returned is the sum
    of [s_y * (1 + r)^(-y)] with the survival probability [s_y] carried
    from year to year. *)
Theorem present_values_follow_the_formulas (tables : MortalityTables)
    (a : Z) (gender : string) (t : Z) (coverage : Z)
    (cso_table : gmap Z Q) (rate_at_80 : Q) :
  CSO_2017 tables !! gender = Some cso_table ->
  cso_table !! 80%Z = Some rate_at_80 ->
  ~ 1 + discount_rate_standard tables == 0 ->
  (forall mortality_cost : Q,
     _calculate_mortality_cost tables a gender t = Ok mortality_cost ->
     _calculate_benefit_present_value coverage mortality_cost a gender t
     == benefit_present_value coverage (q cso_table rate_at_80) a (Z.to_nat t)
          (discount_rate_standard tables)) /\
  (forall premium_pv : Q,
     _calculate_premium_present_value tables t a gender = Ok premium_pv ->
     premium_pv
     == annuity_present_value (q cso_table rate_at_80) a (Z.to_nat t)
          (discount_rate_standard tables)).
Proof.
  intros Hgender H80 Hr.
  destruct (mortality_cost_loop cso_table rate_at_80 _ a (Z.to_nat t) H80 Hr)
    as (total & Hcost & Htotal).
  destruct (premium_pv_loop cso_table rate_at_80 _ a (Z.to_nat t) H80 Hr)
    as (pv & sp & Hpv & Hann & _).
  unfold _calculate_mortality_cost, _calculate_premium_present_value, subscript.
  rewrite Hgender. cbn [mbind result_bind].
  rewrite (range_to_nat t), Hcost, Hpv. cbn [mbind result_bind fst].
  split.
  - intros mortality_cost [= <-].
    unfold _calculate_benefit_present_value, benefit_present_value.
    now rewrite Htotal.
  - intros premium_pv [= <-]. exact Hann.
Qed.

(** Two years from age 79 on the sample table, both rated at the table's
    last age: the annuity carries the survival of the first year, the
    benefit does not. *)
Lemma present_values_follow_the_formulas_witness :
  exists mortality_cost premium_pv,
    _calculate_mortality_cost Sample.mortality_tables 79 "male" 2
    = Ok mortality_cost /\
    _calculate_premium_present_value Sample.mortality_tables 2 79 "male"
    = Ok premium_pv /\
    inject_Z 1000 * mortality_cost == 1000 * (0.05 + 0.05 / 1.035) /\
    premium_pv == 1 + (1 - 0.05) / 1.035.
Proof.
  destruct (_calculate_mortality_cost Sample.mortality_tables 79 "male" 2)
    as [mc | e] eqn:Hmc; [|vm_compute in Hmc; discriminate Hmc].
  destruct (_calculate_premium_present_value Sample.mortality_tables 2 79
              "male") as [pv | e] eqn:Hpv; [|vm_compute in Hpv; discriminate Hpv].
  destruct (present_values_follow_the_formulas Sample.mortality_tables
              79 "male" 2 1000
              {[ 35%Z := 0.001; 36%Z := 0.0011; 37%Z := 0.0012; 80%Z := 0.05 ]}
              0.05)
    as (Hben & Hann).
  - reflexivity.
  - reflexivity.
  - intros E; discriminate E.
  - exists mc, pv. split; [reflexivity|]. split; [reflexivity|]. split.
    + specialize (Hben mc Hmc).
      unfold _calculate_benefit_present_value in Hben. rewrite Hben.
      vm_compute. reflexivity.
    + rewrite (Hann pv Hpv). vm_compute. reflexivity.
Defined.

(** ** Net premium *)

Lemma net_premium_of_spec (benefit_pv premium_pv : Q) :
  net_premium_of benefit_pv premium_pv
  = Ok (if Qltb 0 premium_pv then benefit_pv / premium_pv else 0).
Proof.
  unfold net_premium_of.
  destruct (Qltb_spec 0 premium_pv) as [Hpos | Hnpos]; [|reflexivity].
  apply py_div_ok. lra.
Qed.

(** C5.  In both pricing calls the net premium is the benefit present
    value divided by the premium-annuity present value when the latter is
    positive, and 0 when it is zero, as it is for a term of 0; the
    expression never raises: once the steps before it have succeeded (and,
    for life, the loads do not sum to -1, the divisor of the breakdown),
    the call returns a quote carrying that net premium. *)
Theorem net_premium_is_guarded_quotient (tables : MortalityTables)
    (morbidity : MorbidityTables) (rules : UnderwritingRules)
    (definitions : ProductDefinitions) :
  (forall benefit_pv premium_pv : Q,
     0 < premium_pv ->
     net_premium_of benefit_pv premium_pv = Ok (benefit_pv / premium_pv)) /\
  (forall benefit_pv premium_pv : Q,
     premium_pv == 0 -> net_premium_of benefit_pv premium_pv = Ok 0) /\
  (forall benefit_pv premium_pv : Q,
     exists net, net_premium_of benefit_pv premium_pv = Ok net) /\
  (forall (age : Z) (gender : string) (cso_table : gmap Z Q),
     CSO_2017 tables !! gender = Some cso_table ->
     _calculate_premium_present_value tables 0 age gender = Ok 0.0 /\
     forall benefit_pv : Q, net_premium_of benefit_pv 0.0 = Ok 0) /\
  (forall (age : Z) (gender : string) (coverage term : Z)
          (product_type : string) (risk_factors : option RiskFactors)
          (product : Product) (mortality_cost premium_pv : Q),
     products definitions !! product_type = Some product ->
     _validate_life_insurance_inputs age coverage term product = Ok tt ->
     _calculate_mortality_cost tables age gender term = Ok mortality_cost ->
     _calculate_premium_present_value tables term age gender = Ok premium_pv ->
     ~ 1 + expense_load product + profit_margin product + commission product
       == 0 ->
     exists quote,
       calculate_life_insurance_premium tables rules definitions age gender
         coverage term product_type risk_factors = Ok quote /\
       net_premium quote
       = if Qltb 0 premium_pv
         then inject_Z coverage * mortality_cost / premium_pv else 0) /\
  (forall (age : Z) (gender : string) (occupation_class monthly_benefit : Z)
          (benefit_period : BenefitPeriod) (waiting_period : Z)
          (product : Product) (occ_data : OccupationClassData)
          (closest_age : Z) (by_gender : gmap string Q)
          (morbidity_rate benefit_pv premium_pv benefit_percentage : Q),
     products definitions !! "disability_income"%string = Some product ->
     _validate_disability_inputs morbidity age monthly_benefit occupation_class
       product = Ok tt ->
     occupation_classes morbidity !! occupation_class = Some occ_data ->
     _find_closest_age age (rates occ_data) = Ok closest_age ->
     rates_at (rates occ_data) closest_age = Ok by_gender ->
     by_gender !! gender = Some morbidity_rate ->
     _calculate_disability_present_value tables monthly_benefit morbidity_rate
       age benefit_period = Ok benefit_pv ->
     _calculate_premium_present_value tables (65 - age) age gender
     = Ok premium_pv ->
     _get_waiting_period_adjustment morbidity waiting_period
     = Ok benefit_percentage ->
     exists quote,
       calculate_disability_premium tables morbidity definitions age gender
         occupation_class monthly_benefit benefit_period waiting_period
       = Ok quote /\
       net_premium quote
       = if Qltb 0 premium_pv then benefit_pv / premium_pv else 0).
Proof.
  split; [|split; [|split; [|split; [|split]]]].
  - intros b p Hp. rewrite net_premium_of_spec.
    now destruct (Qltb_spec 0 p).
  - intros b p Hp. rewrite net_premium_of_spec.
    destruct (Qltb_spec 0 p); [lra | reflexivity].
  - intros b p. rewrite net_premium_of_spec. eauto.
  - intros age gender cso_table Hgender. split.
    + unfold _calculate_premium_present_value, subscript.
      now rewrite Hgender.
    + intros b. reflexivity.
  - intros age gender coverage term product_type risk_factors product
      mortality_cost premium_pv Hproduct Hvalid Hcost Hpv Hloads.
    unfold calculate_life_insurance_premium, subscript.
    rewrite Hproduct. cbn [mbind result_bind].
    rewrite Hvalid. cbn [mbind result_bind].
    rewrite Hcost. cbn [mbind result_bind].
    rewrite Hpv. cbn [mbind result_bind].
    rewrite net_premium_of_spec. cbn [mbind result_bind].
    rewrite !(py_div_ok _ _ Hloads). cbn [mbind result_bind].
    eexists. split; reflexivity.
  - intros age gender occupation_class monthly_benefit benefit_period
      waiting_period product occ_data closest_age by_gender morbidity_rate
      benefit_pv premium_pv benefit_percentage
      Hproduct Hvalid Hocc Hclosest Hrates Hrate Hben Hpv Hwait.
    unfold calculate_disability_premium, subscript.
    rewrite Hproduct. cbn [mbind result_bind].
    rewrite Hvalid. cbn [mbind result_bind].
    rewrite Hocc. cbn [mbind result_bind].
    rewrite Hclosest. cbn [mbind result_bind].
    rewrite Hrates. cbn [mbind result_bind].
    rewrite Hrate. cbn [mbind result_bind].
    rewrite Hben. cbn [mbind result_bind].
    rewrite Hpv. cbn [mbind result_bind].
    rewrite net_premium_of_spec. cbn [mbind result_bind].
    rewrite Hwait. cbn [mbind result_bind].
    eexists. split; reflexivity.
Qed.

(** On the sample tables: a two-year term life call and a disability call
    at age 63 return a positive net premium, and a term of 0 returns a net
    premium of 0. *)
Lemma net_premium_is_guarded_quotient_witness :
  (exists quote,
     calculate_life_insurance_premium Sample.mortality_tables Sample.rules
       Sample.product_definitions 35 "male" 500000 2 "term_life" None
     = Ok quote /\ 0 < net_premium quote) /\
  (exists quote,
     calculate_life_insurance_premium Sample.mortality_tables Sample.rules
       Sample.product_definitions 35 "male" 500000 0 "term_life" None
     = Ok quote /\ net_premium quote = 0) /\
  (exists quote,
     calculate_disability_premium Sample.mortality_tables
       Sample.morbidity_tables Sample.product_definitions 63 "male" 2 3000
       to_age_65 90
     = Ok quote /\ 0 < net_premium quote).
Proof.
  destruct (net_premium_is_guarded_quotient Sample.mortality_tables
              Sample.morbidity_tables Sample.rules Sample.product_definitions)
    as (_ & _ & _ & _ & Hlife & Hdisability).
  split; [|split].
  - edestruct (Hlife 35%Z "male"%string 500000%Z 2%Z "term_life"%string None)
      as (quote & Hquote & Hnet).
    + vm_compute; reflexivity.
    + vm_compute; reflexivity.
    + vm_compute; reflexivity.
    + vm_compute; reflexivity.
    + intros E; discriminate E.
    + exists quote. split; [exact Hquote|]. rewrite Hnet. reflexivity.
  - edestruct (Hlife 35%Z "male"%string 500000%Z 0%Z "term_life"%string None)
      as (quote & Hquote & Hnet).
    + vm_compute; reflexivity.
    + vm_compute; reflexivity.
    + vm_compute; reflexivity.
    + vm_compute; reflexivity.
    + intros E; discriminate E.
    + exists quote. split; [exact Hquote|]. rewrite Hnet. reflexivity.
  - edestruct (Hdisability 63%Z "male"%string 2%Z 3000%Z to_age_65 90%Z)
      as (quote & Hquote & Hnet).
    + vm_compute; reflexivity.
    + vm_compute; reflexivity.
    + vm_compute; reflexivity.
    + vm_compute; reflexivity.
    + vm_compute; reflexivity.
    + vm_compute; reflexivity.
    + vm_compute; reflexivity.
    + vm_compute; reflexivity.
    + vm_compute; reflexivity.
    + exists quote. split; [exact Hquote|]. rewrite Hnet. reflexivity.
Defined.

(** * Further properties of the code *)

Import RuleTables RegulatoryStandards ProductManager RequestReading.

(** ** underwriting_engine.py *)

(** X1.  For a positive requested coverage the decision is declined
    exactly when the maximum coverage is 0; the decision is never
    postponed, and the maximum coverage is never negative. *)
Theorem declined_iff_no_coverage (overall_risk financial_risk : Q)
    (coverage : Z) (risk_factors : list RiskFactor) :
  (0 < coverage)%Z ->
  (fst (_make_underwriting_decision overall_risk financial_risk coverage
          risk_factors) = DECLINED
   <-> snd (_make_underwriting_decision overall_risk financial_risk coverage
              risk_factors) = 0%Z) /\
  fst (_make_underwriting_decision overall_risk financial_risk coverage
         risk_factors) <> POSTPONED /\
  (0 <= snd (_make_underwriting_decision overall_risk financial_risk coverage
               risk_factors))%Z.
Proof.
  intros Hcov. unfold _make_underwriting_decision.
  repeat match goal with
         | |- context [Qleb ?x ?y] => destruct (Qleb x y)
         end; cbn [fst snd];
    (split; [split; intros H; try discriminate H; try reflexivity; lia
            | split; [discriminate | lia]]).
Qed.

Lemma declined_iff_no_coverage_witness :
  fst (_make_underwriting_decision 5 1 100000 []) = DECLINED /\
  fst (_make_underwriting_decision 1 1 100000 []) <> DECLINED.
Proof.
  split.
  - apply (proj1 (declined_iff_no_coverage 5 1 100000 [] eq_refl)).
    reflexivity.
  - intros H.
    apply (proj1 (declined_iff_no_coverage 1 1 100000 [] eq_refl)) in H.
    discriminate H.
Defined.

(** X2.  For a fixed financial score and a non-negative requested
    coverage, a higher overall risk never gets a higher maximum
    coverage. *)
Theorem maximum_coverage_antitone (overall_risk overall_risk' financial_risk : Q)
    (coverage : Z) (risk_factors risk_factors' : list RiskFactor) :
  (0 <= coverage)%Z -> overall_risk <= overall_risk' ->
  (snd (_make_underwriting_decision overall_risk' financial_risk coverage
          risk_factors')
   <= snd (_make_underwriting_decision overall_risk financial_risk coverage
             risk_factors))%Z.
Proof.
  intros Hcov Hle. unfold _make_underwriting_decision.
  destruct (Qleb 3.0 financial_risk); [cbn; lia|].
  repeat match goal with
         | |- context [Qleb ?x ?y] => destruct (Qleb_spec x y)
         end; cbn [fst snd]; try lia; lra.
Qed.

Lemma maximum_coverage_antitone_witness :
  (snd (_make_underwriting_decision 3 1 3000000 [])
   <= snd (_make_underwriting_decision 1.5 1 3000000 []))%Z.
Proof.
  apply maximum_coverage_antitone.
  - lia.
  - intros E; discriminate E.
Defined.

(** The scores of the financial assessment and when they decline. *)
Lemma _assess_financial_capacity_scores (rules : UnderwritingRules)
    (fin : FinancialInfo) (coverage : Z) (product_type : string) :
  exists score fs,
    _assess_financial_capacity rules fin coverage product_type = Ok (score, fs) /\
    (score == 1.0 \/ score == 1.3 \/ score == 2.0 \/ score == 2.6 \/
     score == 3.0 \/ score == 3.9) /\
    (3.0 <= score <->
     (5000000 <= coverage)%Z /\
     default 0 (net_worth fin) < coverage_5m_plus_min_net_worth rules).
Proof.
  unfold _assess_financial_capacity, financial_limits.
  assert (H12 : py_div (default 0 (annual_income fin)) 12
                = Ok (default 0 (annual_income fin) / 12)).
  { apply py_div_ok. intros E; discriminate E. }
  rewrite H12. cbn [mbind result_bind].
  assert (Hdiv : 0 < default 0 (annual_income fin) ->
                 py_div (default 0 (total_debt fin))
                   (default 0 (annual_income fin))
                 = Ok (default 0 (total_debt fin)
                       / default 0 (annual_income fin))).
  { intros Hpos. apply py_div_ok. lra. }
  destruct (Qltb_spec 0 (default 0 (annual_income fin))) as [Hpos | Hnpos].
  - rewrite (Hdiv Hpos).
    destruct (Z.leb_spec 5000000 coverage) as [H5 | H5];
      [ assert (H1 : (1000000 <=? coverage)%Z = true) by (apply Z.leb_le; lia)
      | ];
      try rewrite H1;
      destruct (Qltb_spec (default 0 (net_worth fin))
                  (coverage_5m_plus_min_net_worth rules)) as [Hnw | Hnw];
      repeat match goal with
             | |- context [if ?b then _ else _] =>
                 destruct b; cbn [mbind result_bind]
             end;
      eexists _, _; (split; [reflexivity|]);
      (split; [ first [ left; reflexivity
                      | right; left; reflexivity
                      | right; right; left; reflexivity
                      | right; right; right; left; reflexivity
                      | right; right; right; right; left; reflexivity
                      | right; right; right; right; right; reflexivity ]
              | split; [ intros Hs; first [ split; [lia | assumption]
                                          | exfalso; revert Hs; clear;
                                            intros Hs; apply Hs; reflexivity ]
                       | intros [Hc Hn];
                         first [ intros E; discriminate E | lia | lra ] ] ]).
  - destruct (Z.leb_spec 5000000 coverage) as [H5 | H5];
      [ assert (H1 : (1000000 <=? coverage)%Z = true) by (apply Z.leb_le; lia)
      | ];
      try rewrite H1;
      destruct (Qltb_spec (default 0 (net_worth fin))
                  (coverage_5m_plus_min_net_worth rules)) as [Hnw | Hnw];
      repeat match goal with
             | |- context [if ?b then _ else _] =>
                 destruct b; cbn [mbind result_bind]
             end;
      eexists _, _; (split; [reflexivity|]);
      (split; [ first [ left; reflexivity
                      | right; left; reflexivity
                      | right; right; left; reflexivity
                      | right; right; right; left; reflexivity
                      | right; right; right; right; left; reflexivity
                      | right; right; right; right; right; reflexivity ]
              | split; [ intros Hs; first [ split; [lia | assumption]
                                          | exfalso; revert Hs; clear;
                                            intros Hs; apply Hs; reflexivity ]
                       | intros [Hc Hn];
                         first [ intros E; discriminate E | lia | lra ] ] ]).
Qed.

(** X3.  The financial assessment always returns, with a score among 1.0,
    1.3, 2.0, 2.6, 3.0 and 3.9; the score reaches the declining threshold
    3.0 exactly when the requested coverage is at least 5,000,000 and the
    net worth is below the requirement of that tier: an exceeded income
    limit, the 1,000,000 tier and a high debt-to-income ratio never
    decline by themselves. *)
Theorem financial_decline_only_at_five_million (rules : UnderwritingRules)
    (fin : FinancialInfo) (coverage : Z) (product_type : string) :
  exists score fs,
    _assess_financial_capacity rules fin coverage product_type = Ok (score, fs) /\
    (score == 1.0 \/ score == 1.3 \/ score == 2.0 \/ score == 2.6 \/
     score == 3.0 \/ score == 3.9) /\
    (3.0 <= score <->
     (5000000 <= coverage)%Z /\
     default 0 (net_worth fin) < coverage_5m_plus_min_net_worth rules).
Proof.
  apply _assess_financial_capacity_scores.
Qed.

(** X4.  A request of 5,000,000 or more from an applicant whose net worth
    is below the requirement of that tier is declined with maximum
    coverage 0: every assessment that is returned for it says so, whatever
    its medical, lifestyle and occupation risks. *)
Theorem insufficient_net_worth_is_declined (rules : UnderwritingRules)
    (a : ApplicantData) (product_type : string) (coverage : Z)
    (ra : RiskAssessment) :
  (5000000 <= coverage)%Z ->
  default 0 (net_worth (default empty_financial_info (financial_info a)))
  < coverage_5m_plus_min_net_worth rules ->
  perform_comprehensive_risk_assessment rules a product_type coverage = Ok ra ->
  underwriting_decision ra = DECLINED /\ maximum_coverage ra = 0%Z.
Proof.
  intros Hcov Hnw Hra.
  destruct (perform_comprehensive_risk_assessment_spec rules a product_type
              coverage) as (mr & mf & fr & ff & _ & Hfin & Hspec).
  rewrite Hspec in Hra. injection Hra as <-.
  destruct (_assess_financial_capacity_scores rules
              (default empty_financial_info (financial_info a)) coverage
              product_type) as (score & fs & Hfin' & _ & Hiff).
  rewrite Hfin in Hfin'. injection Hfin' as <- <-.
  cbn.
  unfold _make_underwriting_decision.
  destruct (Qleb_spec 3.0 fr) as [_ | Hlt]; [split; reflexivity|].
  exfalso. apply Hlt. apply Hiff. split; assumption.
Qed.

Lemma insufficient_net_worth_is_declined_witness :
  exists ra,
    perform_comprehensive_risk_assessment Sample.rules Sample.sample_applicant
      "whole_life" 6000000 = Ok ra /\
    underwriting_decision ra = DECLINED /\ maximum_coverage ra = 0%Z.
Proof.
  destruct (perform_comprehensive_risk_assessment Sample.rules
              Sample.sample_applicant "whole_life" 6000000)
    as [ra | e] eqn:Hra; [|vm_compute in Hra; discriminate Hra].
  exists ra. split; [reflexivity|].
  apply (insufficient_net_worth_is_declined Sample.rules
           Sample.sample_applicant "whole_life" 6000000 ra).
  - lia.
  - reflexivity.
  - exact Hra.
Defined.

Lemma hazardous_fold_listed (rules : UnderwritingRules)
    (activities : list string) (acc : Q * list RiskFactor) :
  fold_left (hazardous_activity_step rules) activities acc
  = fold_left (hazardous_activity_step rules)
      (List.filter (listed_activity rules) activities) acc.
Proof.
  revert acc. induction activities as [| x rest IH]; intros acc; simpl.
  - reflexivity.
  - unfold listed_activity at 1.
    destruct (hazardous_activities rules !! x) as [rule|] eqn:E; simpl.
    + apply IH.
    + rewrite <- IH. f_equal.
      unfold hazardous_activity_step. destruct acc as [m fs]. now rewrite E.
Qed.

(** X5.  A hazardous activity that the rule table does not list costs
    nothing: an application gets the same lifestyle multiplier and the
    same lifestyle risk factors as the application with the unlisted
    activities left out. *)
Theorem unlisted_activities_cost_nothing (rules : UnderwritingRules)
    (l l' : Lifestyle) :
  smoking_status l' = smoking_status l ->
  alcohol_use l' = alcohol_use l ->
  default [] (lf_hazardous_activities l')
  = List.filter (listed_activity rules) (default [] (lf_hazardous_activities l)) ->
  _assess_lifestyle_risk rules l' = _assess_lifestyle_risk rules l.
Proof.
  intros Hs Ha Hlisted. unfold _assess_lifestyle_risk.
  rewrite Hs, Ha, Hlisted.
  repeat case_match; symmetry; apply hazardous_fold_listed.
Qed.

(** On the sample rules chess is not listed: a smoker who skydives and
    plays chess is rated as one who skydives. *)
Lemma unlisted_activities_cost_nothing_witness :
  _assess_lifestyle_risk Sample.rules
    {| smoking_status := Some "smoker"%string; alcohol_use := None;
       lf_hazardous_activities := Some ["skydiving"%string] |}
  = _assess_lifestyle_risk Sample.rules
      {| smoking_status := Some "smoker"%string; alcohol_use := None;
         lf_hazardous_activities :=
           Some ["chess"%string; "skydiving"%string; "chess"%string] |}.
Proof.
  apply unlisted_activities_cost_nothing; reflexivity.
Defined.

(** ** actuarial_calculator.py *)

Import QuoteReading.

Lemma closest_from_spec (age best : Z) (ages : list Z) :
  In (closest_from age best ages) (best :: ages) /\
  forall x, In x (best :: ages) ->
            (Z.abs (closest_from age best ages - age) <= Z.abs (x - age))%Z.
Proof.
  revert best. induction ages as [| y rest IH]; intros best; simpl.
  - split; [now left|]. intros x [<- | []]. lia.
  - destruct (IH (if (Z.abs (y - age) <? Z.abs (best - age))%Z
                  then y else best)) as [Hin Hmin].
    split.
    + destruct Hin as [Heq | Hin]; [|now right; right].
      rewrite <- Heq. destruct (_ <? _)%Z; [right; now left | now left].
    + intros x Hx.
      destruct (Z.ltb_spec (Z.abs (y - age)) (Z.abs (best - age)))
        as [Hlt | Hge].
      * destruct Hx as [<- | [<- | Hx]].
        -- specialize (Hmin y (or_introl eq_refl)). lia.
        -- apply Hmin. now left.
        -- apply Hmin. now right.
      * destruct Hx as [<- | [<- | Hx]].
        -- apply Hmin. now left.
        -- specialize (Hmin best (or_introl eq_refl)). lia.
        -- apply Hmin. now right.
Qed.

Lemma rates_at_tabulated (age_data : list (Z * gmap string Q)) (a : Z) :
  In a (map fst age_data) -> exists by_gender, rates_at age_data a = Ok by_gender.
Proof.
  induction age_data as [| [k v] rest IH]; simpl; [intros []|].
  intros [<- | Hin].
  - rewrite Z.eqb_refl. eauto.
  - destruct (k =? a)%Z; eauto.
Qed.

(** X7.  The closest age of an empty table is a [ValueError]; otherwise
    it is an age of the table at the least distance from the applicant's
    age, and the lookup of its rates never misses. *)
Theorem closest_age_is_nearest_tabulated (age : Z)
    (age_data : list (Z * gmap string Q)) :
  (age_data = [] -> _find_closest_age age age_data = Raise ValueError) /\
  (age_data <> [] ->
   exists closest by_gender,
     _find_closest_age age age_data = Ok closest /\
     In closest (map fst age_data) /\
     (forall x, In x (map fst age_data) ->
                (Z.abs (closest - age) <= Z.abs (x - age))%Z) /\
     rates_at age_data closest = Ok by_gender).
Proof.
  split.
  - intros ->. reflexivity.
  - intros Hne. unfold _find_closest_age.
    destruct age_data as [| [a v] rest]; [congruence|]. cbn [map fst].
    destruct (closest_from_spec age a (map fst rest)) as [Hin Hmin].
    destruct (rates_at_tabulated ((a, v) :: rest)
                (closest_from age a (map fst rest)) Hin) as [by_gender Hrates].
    exists (closest_from age a (map fst rest)), by_gender.
    repeat split; assumption.
Qed.

(** Age 36 between the tabulated 30 and 40: 40 is nearer; at 35 the tie
    goes to the first, 30. *)
Lemma closest_age_is_nearest_tabulated_witness :
  _find_closest_age 36 [(30%Z, ∅); (40%Z, ∅)] = Ok 40%Z /\
  _find_closest_age 35 [(30%Z, ∅); (40%Z, ∅)] = Ok 30%Z.
Proof.
  split.
  - destruct (proj2 (closest_age_is_nearest_tabulated 36 [(30%Z, ∅); (40%Z, ∅)]))
      as (closest & by_gender & Hc & Hin & Hmin & _); [discriminate|].
    rewrite Hc. f_equal.
    destruct Hin as [<- | [<- | []]]; [|reflexivity].
    specialize (Hmin 40%Z (or_intror (or_introl eq_refl))). cbn in Hmin. lia.
  - reflexivity.
Defined.

(** X8.  For a product that carries its coverage bounds, the life
    validation accepts exactly the inputs with the age and the coverage
    within the product's bounds (both ends included) and, when the
    product lists its terms, a listed term; every other input is a
    [ValueError]. *)
Theorem life_validation_accepts_iff (age coverage term : Z) (product : Product)
    (min_cov max_cov : Z) :
  min_coverage product = Some min_cov ->
  max_coverage product = Some max_cov ->
  (_validate_life_insurance_inputs age coverage term product = Ok tt
   <-> (min_age product <= age <= max_age product)%Z /\
       (min_cov <= coverage <= max_cov)%Z /\
       (forall ts, terms product = Some ts -> In term ts)) /\
  (_validate_life_insurance_inputs age coverage term product = Ok tt \/
   _validate_life_insurance_inputs age coverage term product = Raise ValueError).
Proof.
  intros Hmin Hmax. unfold _validate_life_insurance_inputs.
  rewrite Hmin, Hmax.
  destruct (Z.ltb_spec age (min_age product)),
           (Z.ltb_spec (max_age product) age),
           (Z.ltb_spec coverage min_cov),
           (Z.ltb_spec max_cov coverage); cbn [orb];
    try (split; [split; [discriminate | intros (? & ? & ?); lia] | now right]).
  destruct (terms product) as [ts|].
  - destruct (existsb (Z.eqb term) ts) eqn:E; cbn [negb].
    + split; [|now left]. split; [|reflexivity].
      intros _. repeat split; try lia.
      intros ts' [= <-]. apply existsb_exists in E as (x & Hx & Hxe).
      apply Z.eqb_eq in Hxe. now subst.
    + split; [|now right]. split; [discriminate|].
      intros (_ & _ & Hterm). exfalso.
      specialize (Hterm ts eq_refl).
      assert (existsb (Z.eqb term) ts = true); [|congruence].
      apply existsb_exists. exists term. split; [assumption | apply Z.eqb_refl].
  - split; [|now left]. split; [|reflexivity].
    intros _. repeat split; try lia. discriminate.
Qed.

Lemma life_validation_accepts_iff_witness :
  _validate_life_insurance_inputs 75 50000 10
    {| expense_load := 0.15; profit_margin := 0.1; commission := 0.05;
       min_age := 18; max_age := 75;
       min_coverage := Some 50000%Z; max_coverage := Some 5000000%Z;
       terms := Some [10; 20]%Z;
       min_monthly_benefit := None; max_monthly_benefit := None |} = Ok tt.
Proof.
  apply (proj1 (life_validation_accepts_iff 75 50000 10
                  {| expense_load := 0.15; profit_margin := 0.1;
                     commission := 0.05; min_age := 18; max_age := 75;
                     min_coverage := Some 50000%Z;
                     max_coverage := Some 5000000%Z;
                     terms := Some [10; 20]%Z;
                     min_monthly_benefit := None;
                     max_monthly_benefit := None |}
                  50000 5000000 eq_refl eq_refl)).
  repeat split; cbn; try lia.
  intros ts [= <-]. now left.
Defined.

Lemma for_each_ext {S A} (l : list A) (body body' : S -> A -> result S) (s : S) :
  (forall s x, In x l -> body s x = body' s x) ->
  for_each l body s = for_each l body' s.
Proof.
  revert s. induction l as [| x l IH]; intros s Hext; simpl.
  - reflexivity.
  - rewrite (Hext s x (or_introl eq_refl)).
    destruct (body' s x) as [s' | e]; simpl; [|reflexivity].
    apply IH. intros s0 y Hy. apply Hext. now right.
Qed.

Lemma range_nonneg (n y : Z) : In y (range n) -> (0 <= y)%Z.
Proof.
  unfold range. intros Hin. apply in_map_iff in Hin as (k & <- & _). lia.
Qed.

Lemma range_first (n : Z) :
  (1 <= n)%Z -> exists rest, range n = 0%Z :: rest.
Proof.
  intros Hn. unfold range.
  destruct (Z.to_nat n) as [| k] eqn:E; [lia|].
  simpl. eauto.
Qed.

Lemma range_empty (n : Z) : (n <= 0)%Z -> range n = [].
Proof.
  intros Hn. unfold range.
  replace (Z.to_nat n) with 0%nat by lia. reflexivity.
Qed.

(** X9.  An age beyond the table's last age, 80, is rated as 80: from
    such an age the mortality cost and the premium-annuity present value
    are those of age 80, whatever the term. *)
Theorem ages_beyond_eighty_are_clamped (tables : MortalityTables)
    (a : Z) (gender : string) (t : Z) :
  (80 <= a)%Z ->
  _calculate_mortality_cost tables a gender t
  = _calculate_mortality_cost tables 80 gender t /\
  _calculate_premium_present_value tables t a gender
  = _calculate_premium_present_value tables t 80 gender.
Proof.
  intros Ha.
  unfold _calculate_mortality_cost, _calculate_premium_present_value.
  destruct (subscript (CSO_2017 tables) gender) as [cso | e];
    cbn [mbind result_bind]; [|split; reflexivity].
  split.
  - apply for_each_ext. intros s y Hy. apply range_nonneg in Hy.
    unfold mortality_cost_step.
    now replace (Z.min (a + y) 80) with (Z.min (80 + y) 80) by lia.
  - f_equal. apply for_each_ext. intros [pv sp] y Hy.
    apply range_nonneg in Hy. unfold premium_pv_step.
    now replace (Z.min (a + y) 80) with (Z.min (80 + y) 80) by lia.
Qed.

Lemma ages_beyond_eighty_are_clamped_witness :
  _calculate_mortality_cost Sample.mortality_tables 95 "male" 2
  = _calculate_mortality_cost Sample.mortality_tables 80 "male" 2.
Proof.
  apply ages_beyond_eighty_are_clamped. lia.
Defined.

(** X10.  The rate at age 80 is the fallback of every lookup and is read
    before the lookup: on a table without age 80 any term of a year or
    more raises [KeyError], even when the ages of the term are all
    tabulated; an unknown gender raises [KeyError] for every term; a term
    of 0 or less on a known gender reads no rate and gives 0.0. *)
Theorem missing_last_age_raises_key_error (tables : MortalityTables)
    (a : Z) (gender : string) (t : Z) :
  (forall cso_table,
     CSO_2017 tables !! gender = Some cso_table ->
     cso_table !! 80%Z = None -> (1 <= t)%Z ->
     _calculate_mortality_cost tables a gender t = Raise KeyError /\
     _calculate_premium_present_value tables t a gender = Raise KeyError) /\
  (CSO_2017 tables !! gender = None ->
   _calculate_mortality_cost tables a gender t = Raise KeyError /\
   _calculate_premium_present_value tables t a gender = Raise KeyError) /\
  (forall cso_table,
     CSO_2017 tables !! gender = Some cso_table -> (t <= 0)%Z ->
     _calculate_mortality_cost tables a gender t = Ok 0.0 /\
     _calculate_premium_present_value tables t a gender = Ok 0.0).
Proof.
  unfold _calculate_mortality_cost, _calculate_premium_present_value, subscript.
  split; [|split].
  - intros cso Hgender H80 Ht. rewrite Hgender. cbn [mbind result_bind].
    destruct (range_first t Ht) as [rest ->]. cbn [for_each].
    unfold mortality_cost_step, premium_pv_step, cso_get, subscript.
    rewrite H80. split; reflexivity.
  - intros Hgender. rewrite Hgender. split; reflexivity.
  - intros cso Hgender Ht. rewrite Hgender. cbn [mbind result_bind].
    rewrite (range_empty t Ht). split; reflexivity.
Qed.

(** A table holding the ages 35 and 36 but not 80: a two-year term from
    35 needs only those two ages and still raises. *)
Lemma missing_last_age_raises_key_error_witness :
  _calculate_mortality_cost
    {| CSO_2017 := {[ "male"%string := {[ 35%Z := 0.001; 36%Z := 0.0011 ]} ]};
       discount_rate_standard := 0.035 |} 35 "male" 2 = Raise KeyError.
Proof.
  apply (proj1 (missing_last_age_raises_key_error
                  {| CSO_2017 :=
                       {[ "male"%string := {[ 35%Z := 0.001; 36%Z := 0.0011 ]} ]};
                     discount_rate_standard := 0.035 |} 35 "male" 2)
           {[ 35%Z := 0.001; 36%Z := 0.0011 ]}).
  - reflexivity.
  - reflexivity.
  - lia.
Defined.

Lemma sum_years_nonneg (f : nat -> Q) (n : nat) :
  (forall y, 0 <= f y) -> 0 <= sum_years f n.
Proof.
  intros Hf. induction n as [| n IH]; simpl.
  - apply Qle_refl.
  - specialize (Hf n). lra.
Qed.

Lemma sum_years_first (f : nat -> Q) (n : nat) :
  (forall y, 0 <= f y) -> f 0%nat <= sum_years f (S n).
Proof.
  intros Hf. induction n as [| n IH].
  - simpl. lra.
  - change (sum_years f (S (S n))) with (sum_years f (S n) + f (S n)).
    specialize (Hf (S n)). lra.
Qed.

Lemma discount_positive (r : Q) (y : nat) : 0 <= r -> 0 < discount r y.
Proof.
  intros Hr. unfold discount. apply Qpower_0_lt. lra.
Qed.

Lemma q_probability (cso_table : gmap Z Q) (rate_at_80 : Q) (a : Z) :
  probability_table cso_table -> cso_table !! 80%Z = Some rate_at_80 ->
  0 <= q cso_table rate_at_80 a /\ q cso_table rate_at_80 a <= 1.
Proof.
  intros Hprob H80. unfold q.
  destruct (cso_table !! a) as [rate|] eqn:E; simpl.
  - exact (Hprob a rate E).
  - exact (Hprob 80%Z rate_at_80 H80).
Qed.

Lemma survival_nonneg (cso_table : gmap Z Q) (rate_at_80 : Q) (a : Z) (y : nat) :
  probability_table cso_table -> cso_table !! 80%Z = Some rate_at_80 ->
  0 <= survival (q cso_table rate_at_80) a y.
Proof.
  intros Hprob H80. induction y as [| y IH]; simpl.
  - discriminate.
  - destruct (q_probability cso_table rate_at_80
                (Z.min (a + Z.of_nat y) 80) Hprob H80) as [_ Hle].
    apply Qmult_le_0_compat; [exact IH | lra].
Qed.

(** X11.  On a table of probabilities holding age 80 and with a
    non-negative discount rate, a mortality cost that is returned is
    non-negative, and so is a premium-annuity present value that is
    returned; for a term of a year or more the annuity is at least 1 (the
    first premium), so the net premium is the quotient of the two present
    values and not the fallback 0. *)
Theorem present_values_are_nonnegative (tables : MortalityTables)
    (a : Z) (gender : string) (t coverage : Z)
    (cso_table : gmap Z Q) (rate_at_80 : Q) :
  CSO_2017 tables !! gender = Some cso_table ->
  cso_table !! 80%Z = Some rate_at_80 ->
  probability_table cso_table ->
  0 <= discount_rate_standard tables ->
  (forall mortality_cost,
     _calculate_mortality_cost tables a gender t = Ok mortality_cost ->
     0 <= mortality_cost) /\
  (forall premium_pv,
     _calculate_premium_present_value tables t a gender = Ok premium_pv ->
     0 <= premium_pv /\
     ((1 <= t)%Z ->
      1 <= premium_pv /\
      forall mortality_cost,
        net_premium_of (inject_Z coverage * mortality_cost) premium_pv
        = Ok (inject_Z coverage * mortality_cost / premium_pv))).
Proof.
  intros Hgender H80 Hprob Hr.
  assert (Hr1 : ~ 1 + discount_rate_standard tables == 0) by lra.
  destruct (mortality_cost_loop cso_table rate_at_80 _ a (Z.to_nat t) H80 Hr1)
    as (total & Hcost & Htotal).
  destruct (premium_pv_loop cso_table rate_at_80 _ a (Z.to_nat t) H80 Hr1)
    as (pv & sp & Hpv & Hann & _).
  unfold _calculate_mortality_cost, _calculate_premium_present_value, subscript.
  rewrite Hgender. cbn [mbind result_bind].
  rewrite (range_to_nat t), Hcost, Hpv. cbn [mbind result_bind fst].
  assert (Hterm : forall y,
            0 <= survival (q cso_table rate_at_80) a y
                 * discount (discount_rate_standard tables) y).
  { intros y. apply Qmult_le_0_compat.
    - now apply survival_nonneg.
    - apply Qlt_le_weak. now apply discount_positive. }
  split.
  - intros mortality_cost Hmc. injection Hmc as <-.
    rewrite Htotal. apply sum_years_nonneg. intros y.
    apply Qmult_le_0_compat.
    + now apply q_probability.
    + apply Qlt_le_weak. now apply discount_positive.
  - intros premium_pv Hppv. injection Hppv as <-. split.
    + rewrite Hann. unfold annuity_present_value. now apply sum_years_nonneg.
    + intros Ht.
      assert (Hone : 1 <= pv).
      { rewrite Hann. unfold annuity_present_value.
        destruct (Z.to_nat t) as [| n] eqn:E; [lia|].
        eapply Qle_trans; [|apply sum_years_first; exact Hterm].
        cbn. discriminate. }
      split; [exact Hone|].
      intros mortality_cost. rewrite net_premium_of_spec.
      destruct (Qltb_spec 0 pv) as [_ | Hn]; [reflexivity | lra].
Qed.

Lemma present_values_are_nonnegative_witness :
  exists mortality_cost premium_pv,
    _calculate_mortality_cost Sample.mortality_tables 35 "male" 2
    = Ok mortality_cost /\
    _calculate_premium_present_value Sample.mortality_tables 2 35 "male"
    = Ok premium_pv /\
    0 <= mortality_cost /\ 1 <= premium_pv.
Proof.
  destruct (_calculate_mortality_cost Sample.mortality_tables 35 "male" 2)
    as [mc | e] eqn:Hmc; [|vm_compute in Hmc; discriminate Hmc].
  destruct (_calculate_premium_present_value Sample.mortality_tables 2 35
              "male")
    as [pv | e] eqn:Hpv; [|vm_compute in Hpv; discriminate Hpv].
  destruct (present_values_are_nonnegative Sample.mortality_tables 35 "male"
              2 500000
              {[ 35%Z := 0.001; 36%Z := 0.0011; 37%Z := 0.0012; 80%Z := 0.05 ]}
              0.05)
    as (Hcost & Hannuity).
  - reflexivity.
  - reflexivity.
  - intros age rate H.
    repeat (apply lookup_insert_Some in H as [[_ <-] | [_ H]];
            [split; intros E; discriminate E|]).
    apply lookup_singleton_Some in H as [_ <-].
    split; intros E; discriminate E.
  - intros E; discriminate E.
  - exists mc, pv. split; [reflexivity|]. split; [reflexivity|]. split.
    + apply Hcost. exact Hmc.
    + apply (Hannuity pv Hpv). lia.
Defined.

(** What a life pricing call that returns has computed. *)
Lemma calculate_life_insurance_premium_inv (tables : MortalityTables) (rules : UnderwritingRules)
    (definitions : ProductDefinitions) (age : Z) (gender : string)
    (coverage term : Z) (product_type : string)
    (risk_factors : option RiskFactors) (product : Product)
    (quote : QuoteResult) :
  products definitions !! product_type = Some product ->
  calculate_life_insurance_premium tables rules definitions age gender coverage
    term product_type risk_factors = Ok quote ->
  risk_multiplier quote
  = _calculate_risk_multiplier rules (default empty_risk_factors risk_factors) /\
  gross_premium quote
  == net_premium quote * risk_multiplier quote
     * (1 + expense_load product + profit_margin product + commission product) /\
  breakdown_number (breakdown quote) "adjusted_net_premium"
  = net_premium quote * risk_multiplier quote.
Proof.
  intros Hproduct Hcall.
  unfold calculate_life_insurance_premium, subscript in Hcall.
  rewrite Hproduct in Hcall. cbn [mbind result_bind] in Hcall.
  destruct (_validate_life_insurance_inputs _ _ _ _) as [[] | e];
    cbn [mbind result_bind] in Hcall; [|discriminate].
  destruct (_calculate_mortality_cost _ _ _ _) as [mc | e];
    cbn [mbind result_bind] in Hcall; [|discriminate].
  destruct (_calculate_premium_present_value _ _ _ _) as [ppv | e];
    cbn [mbind result_bind] in Hcall; [|discriminate].
  rewrite net_premium_of_spec in Hcall. cbn [mbind result_bind] in Hcall.
  destruct (Qeqb_spec (1 + expense_load product + profit_margin product
                       + commission product) 0) as [Hz | Hnz].
  - rewrite !(py_div_zero _ _ Hz) in Hcall. discriminate.
  - rewrite !(py_div_ok _ _ Hnz) in Hcall. cbn [mbind result_bind] in Hcall.
    injection Hcall as <-. cbn.
    split; [reflexivity|]. split; [ring | reflexivity].
Qed.

(** X12.  The gross premium of a life quote is its net premium times the
    calculator's risk multiplier times one plus the three loads of the
    product, and the adjusted net premium of its breakdown is the net
    premium times that risk multiplier. *)
Theorem life_quote_loads_the_adjusted_premium (tables : MortalityTables)
    (rules : UnderwritingRules)
    (definitions : ProductDefinitions) (age : Z) (gender : string)
    (coverage term : Z) (product_type : string)
    (risk_factors : option RiskFactors) (product : Product)
    (quote : QuoteResult) :
  products definitions !! product_type = Some product ->
  calculate_life_insurance_premium tables rules definitions age gender coverage
    term product_type risk_factors = Ok quote ->
  risk_multiplier quote
  = _calculate_risk_multiplier rules (default empty_risk_factors risk_factors) /\
  gross_premium quote
  == net_premium quote * risk_multiplier quote
     * (1 + expense_load product + profit_margin product + commission product) /\
  breakdown_number (breakdown quote) "adjusted_net_premium"
  = net_premium quote * risk_multiplier quote.
Proof.
  intros Hproduct Hcall.
  destruct (calculate_life_insurance_premium_inv tables rules definitions age
              gender coverage term product_type risk_factors product quote
              Hproduct Hcall) as (Hrisk & Hgross & Hadjusted).
  repeat split; assumption.
Qed.

Lemma life_quote_loads_the_adjusted_premium_witness :
  exists quote,
    calculate_life_insurance_premium Sample.mortality_tables Sample.rules
      Sample.product_definitions 35 "male" 500000 2 "term_life" None
    = Ok quote /\
    gross_premium quote == net_premium quote * 1.0 * (1 + 0.15 + 0.1 + 0.05).
Proof.
  destruct (calculate_life_insurance_premium Sample.mortality_tables
              Sample.rules Sample.product_definitions 35 "male" 500000 2
              "term_life" None) as [quote | e] eqn:Hcall;
    [|vm_compute in Hcall; discriminate Hcall].
  exists quote. split; [reflexivity|].
  destruct (life_quote_loads_the_adjusted_premium Sample.mortality_tables
              Sample.rules
              Sample.product_definitions 35 "male" 500000 2 "term_life" None
              {| expense_load := 0.15; profit_margin := 0.1;
                 commission := 0.05; min_age := 18; max_age := 75;
                 min_coverage := Some 50000%Z;
                 max_coverage := Some 5000000%Z;
                 terms := Some [0; 2; 10; 20; 30]%Z;
                 min_monthly_benefit := None; max_monthly_benefit := None |}
              quote eq_refl Hcall) as (Hrisk & Hgross & _).
  rewrite Hgross, Hrisk. reflexivity.
Defined.

Lemma risk_condition_fold_skips (rules : UnderwritingRules)
    (declared : list string) (m : Q) :
  Forall (fun c => is_category_name (medical_conditions rules) c = false)
    declared ->
  fold_left (risk_condition_step rules) declared m = m.
Proof.
  intros Hall. revert m.
  induction Hall as [| c rest Hc _ IH]; intros m; simpl.
  - reflexivity.
  - unfold risk_condition_step at 2. rewrite Hc. apply IH.
Qed.

(** X13.  The calculator's risk multiplier looks a declared condition up
    only when its name is also the name of a category: when no declared
    condition is a category name, the conditions, listed in the rule
    table or not, leave the multiplier as it is without them. *)
Theorem calculator_rates_only_category_names (rules : UnderwritingRules)
    (risk_factors : RiskFactors) (declared : list string) :
  rf_medical_conditions risk_factors = Some declared ->
  Forall (fun c => is_category_name (medical_conditions rules) c = false)
    declared ->
  _calculate_risk_multiplier rules risk_factors
  = _calculate_risk_multiplier rules
      {| rf_medical_conditions := None;
         rf_smoking_status := rf_smoking_status risk_factors;
         rf_hazardous_activities := rf_hazardous_activities risk_factors |}.
Proof.
  intros Hdeclared Hall. unfold _calculate_risk_multiplier.
  rewrite Hdeclared. cbn [rf_medical_conditions rf_smoking_status
                          rf_hazardous_activities].
  now rewrite (risk_condition_fold_skips rules declared _ Hall).
Qed.

(** Heart disease (3.0 in the sample rules) and diabetes (1.75), for a
    non-smoker: risk multiplier 1.0. *)
Lemma calculator_rates_only_category_names_witness :
  _calculate_risk_multiplier Sample.rules
    {| rf_medical_conditions :=
         Some ["heart_disease"%string; "diabetes_type2"%string];
       rf_smoking_status := Some "non_smoker"%string;
       rf_hazardous_activities := Some [] |} = 1.0.
Proof.
  rewrite (calculator_rates_only_category_names Sample.rules
             {| rf_medical_conditions :=
                  Some ["heart_disease"%string; "diabetes_type2"%string];
                rf_smoking_status := Some "non_smoker"%string;
                rf_hazardous_activities := Some [] |}
             ["heart_disease"%string; "diabetes_type2"%string] eq_refl).
  - reflexivity.
  - repeat constructor.
Defined.

Lemma disability_pv_loop (annual_benefit : Z) (morbidity_rate r : Q) (n : nat) :
  ~ 1 + r == 0 ->
  exists pv,
    for_each (range (Z.of_nat n))
      (disability_pv_step annual_benefit morbidity_rate r) 0.0 = Ok pv /\
    pv == inject_Z annual_benefit * morbidity_rate
          * sum_years (fun y => discount r y) n.
Proof.
  intros Hr. induction n as [| n (pv & Hloop & Hpv)].
  - exists 0.0. split; [reflexivity|]. simpl. ring.
  - rewrite range_succ, for_each_app, Hloop. cbn [mbind result_bind for_each].
    unfold disability_pv_step.
    destruct (pv_factor_discount 1 r n Hr) as (-> & Hfac).
    cbn [mbind result_bind]. eexists. split; [reflexivity|].
    cbn [sum_years]. rewrite Hpv, Hfac. ring.
Qed.

(** X14.  A disability benefit present value that is returned is the
    annual benefit (12 monthly benefits) times the morbidity rate times the
    sum of the discount factors of the benefit years: the years to age 65,
    or the leading integer of the benefit period.  From age 65 on a benefit
    to age 65 is worth 0.0, and a benefit period whose leading token is not
    an integer is a [ValueError]. *)
Theorem disability_present_value_formula (tables : MortalityTables)
    (monthly_benefit : Z) (morbidity_rate : Q) (age : Z) :
  ~ 1 + discount_rate_standard tables == 0 ->
  (forall pv,
     _calculate_disability_present_value tables monthly_benefit morbidity_rate
       age to_age_65 = Ok pv ->
     pv == inject_Z (monthly_benefit * 12) * morbidity_rate
           * sum_years (discount (discount_rate_standard tables))
               (Z.to_nat (65 - age))) /\
  (forall (years : Z) pv,
     _calculate_disability_present_value tables monthly_benefit morbidity_rate
       age (leading_token (Some years)) = Ok pv ->
     pv == inject_Z (monthly_benefit * 12) * morbidity_rate
           * sum_years (discount (discount_rate_standard tables))
               (Z.to_nat years)) /\
  _calculate_disability_present_value tables monthly_benefit morbidity_rate
    age (leading_token None) = Raise ValueError /\
  ((65 <= age)%Z ->
   _calculate_disability_present_value tables monthly_benefit morbidity_rate
     age to_age_65 = Ok 0.0).
Proof.
  intros Hr. unfold _calculate_disability_present_value.
  cbn [mbind result_bind].
  split; [|split; [|split]].
  - intros pv. rewrite (range_to_nat (Z.max (65 - age) 0)).
    replace (Z.to_nat (Z.max (65 - age) 0)) with (Z.to_nat (65 - age)) by lia.
    destruct (disability_pv_loop (monthly_benefit * 12) morbidity_rate
                (discount_rate_standard tables) (Z.to_nat (65 - age)) Hr)
      as (pv0 & -> & Heq).
    intros Hpv. injection Hpv as <-. exact Heq.
  - intros years pv. rewrite (range_to_nat years).
    destruct (disability_pv_loop (monthly_benefit * 12) morbidity_rate
                (discount_rate_standard tables) (Z.to_nat years) Hr)
      as (pv0 & -> & Heq).
    intros Hpv. injection Hpv as <-. exact Heq.
  - reflexivity.
  - intros Hage. rewrite range_empty by lia. reflexivity.
Qed.

Lemma disability_present_value_formula_witness :
  exists pv,
    _calculate_disability_present_value Sample.mortality_tables 3000 0.005 63
      to_age_65 = Ok pv /\
    pv == 36000 * 0.005 * (1 + 1 / 1.035).
Proof.
  destruct (_calculate_disability_present_value Sample.mortality_tables 3000
              0.005 63 to_age_65)
    as [pv | e] eqn:Hpv; [|vm_compute in Hpv; discriminate Hpv].
  exists pv. split; [reflexivity|].
  destruct (disability_present_value_formula Sample.mortality_tables 3000
              0.005 63) as (Hformula & _).
  - intros E; discriminate E.
  - rewrite (Hformula pv Hpv). reflexivity.
Defined.

(** ** regulatory_engine.py *)

Import PortfolioReading.

Lemma margin_rate_positive (product_type : string) :
  0 < margin_rate product_type.
Proof.
  unfold margin_rate. repeat case_match; reflexivity.
Qed.

Lemma add_liability_nonnegative (d : list (string * Q)) (product_type : string)
    (coverage : Q) :
  Forall (fun entry => 0 <= snd entry) d -> 0 <= coverage ->
  Forall (fun entry => 0 <= snd entry) (add_liability d product_type coverage).
Proof.
  intros Hd Hc. induction Hd as [| [k v] rest Hv Hrest IH]; simpl.
  - constructor; [|constructor]. cbn. lra.
  - cbn in Hv. destruct (String.eqb k product_type).
    + constructor; [cbn; lra | assumption].
    + constructor; assumption.
Qed.

Lemma liabilities_fold_nonnegative (portfolio : list Policy)
    (d : list (string * Q)) :
  Forall (fun policy => 0 <= default 0 (coverage_amount policy)) portfolio ->
  Forall (fun entry => 0 <= snd entry) d ->
  Forall (fun entry => 0 <= snd entry)
    (fold_left
       (fun d policy =>
          add_liability d (default "term_life"%string (product_type policy))
            (default 0 (coverage_amount policy)))
       portfolio d).
Proof.
  intros Hall. revert d.
  induction Hall as [| policy rest Hc _ IH]; intros d Hd; simpl.
  - exact Hd.
  - apply IH. now apply add_liability_nonnegative.
Qed.

Lemma margin_fold_nonnegative (entries : list (string * Q)) (t : Q) :
  Forall (fun entry => 0 <= snd entry) entries -> 0 <= t ->
  0 <= fold_left
         (fun total entry => total + snd entry * margin_rate (fst entry))
         entries t.
Proof.
  intros Hall. revert t.
  induction Hall as [| [k v] rest Hv _ IH]; intros t Ht; simpl.
  - exact Ht.
  - apply IH. cbn in Hv. pose proof (margin_rate_positive k). nra.
Qed.

(** X15.  The solvency margin of a portfolio whose coverages are not
    negative is not negative, and it does not depend on the total reserves
    that are passed in. *)
Theorem solvency_margin_is_never_negative (portfolio : list Policy)
    (total_reserves : Q) :
  Forall (fun policy => 0 <= default 0 (coverage_amount policy)) portfolio ->
  0 <= _calculate_solvency_margin portfolio total_reserves /\
  forall other_reserves,
    _calculate_solvency_margin portfolio other_reserves
    = _calculate_solvency_margin portfolio total_reserves.
Proof.
  intros Hall. split; [|reflexivity].
  unfold _calculate_solvency_margin.
  apply margin_fold_nonnegative; [|discriminate].
  apply liabilities_fold_nonnegative; [exact Hall | constructor].
Qed.

(** Two term-life policies and a policy without a coverage amount. *)
Lemma solvency_margin_is_never_negative_witness :
  0 <= _calculate_solvency_margin
         [ {| product_type := Some "term_life"%string;
              coverage_amount := Some 100000; remaining_years := None;
              current_age := None; policy_gender := None;
              annual_premium := None |};
           {| product_type := None;
              coverage_amount := None; remaining_years := None;
              current_age := None; policy_gender := None;
              annual_premium := None |};
           {| product_type := Some "disability_income"%string;
              coverage_amount := Some 36000; remaining_years := None;
              current_age := None; policy_gender := None;
              annual_premium := None |} ] 0.
Proof.
  apply solvency_margin_is_never_negative.
  repeat constructor; cbn; discriminate.
Defined.

Lemma _check_capital_adequacy_spec (reserve_calc : ReserveCalculation) :
  _check_capital_adequacy reserve_calc
  = Ok (if Qleb (risk_based_capital reserve_calc) 0 then true
        else Qleb 2.0 ((total_reserves reserve_calc
                        + solvency_margin reserve_calc)
                       / risk_based_capital reserve_calc)).
Proof.
  unfold _check_capital_adequacy.
  destruct (Qleb_spec (risk_based_capital reserve_calc) 0); [reflexivity|].
  rewrite py_div_ok by lra. reflexivity.
Qed.



(** X17.  The compliance assessment always returns; the overall flag is
    the conjunction of the four checks and holds exactly when no action
    is required; there is one note and one required action per failed
    check. *)
Theorem compliance_lists_match_checks (product_type : string)
    (premium_structure : PremiumStructure)
    (underwriting_decision : UnderwritingSummary)
    (reserve_calculation : ReserveCalculation) :
  exists compliance,
    assess_regulatory_compliance product_type premium_structure
      underwriting_decision reserve_calculation = Ok compliance /\
    overall_compliance compliance
    = reserve_adequacy compliance && capital_adequacy compliance
      && pricing_compliance compliance && underwriting_compliance compliance /\
    (overall_compliance compliance = true
     <-> required_actions compliance = []) /\
    length (regulatory_notes compliance)
    = failed_checks (reserve_adequacy compliance) (capital_adequacy compliance)
        (pricing_compliance compliance) (underwriting_compliance compliance) /\
    length (required_actions compliance)
    = length (regulatory_notes compliance).
Proof.
  unfold assess_regulatory_compliance.
  rewrite _check_capital_adequacy_spec. cbn [mbind result_bind].
  eexists. split; [reflexivity|]. cbn.
  destruct (_check_reserve_compliance _ _),
           (if Qleb _ 0 then true else _),
           (_check_pricing_compliance _ _),
           (_check_underwriting_compliance _); cbn;
    repeat split; try reflexivity; try discriminate.
Qed.

Lemma for_each_total {S A} (l : list A) (body : S -> A -> result S) (s : S) :
  (forall s x, exists s', body s x = Ok s') ->
  exists s', for_each l body s = Ok s'.
Proof.
  intros Hbody. revert s. induction l as [| x l IH]; intros s; simpl.
  - eauto.
  - destruct (Hbody s x) as [s' ->]. cbn [mbind result_bind]. apply IH.
Qed.

Lemma py_max_bounds (a b : Q) :
  a <= py_max a b /\ b <= py_max a b /\ (py_max a b = a \/ py_max a b = b).
Proof.
  unfold py_max. destruct (Qltb_spec a b); repeat split; auto; lra.
Qed.

Lemma py_div_raises (a b : Q) (e : exn) :
  py_div a b = Raise e -> e = ZeroDivisionError.
Proof.
  unfold py_div. destruct (Qeqb b 0); intros H; [|discriminate H].
  now injection H as <-.
Qed.

Lemma for_each_raises {S A} (l : list A) (body : S -> A -> result S) (s : S)
    (e : exn) :
  for_each l body s = Raise e -> exists s' x, body s' x = Raise e.
Proof.
  revert s. induction l as [| x l IH]; intros s; simpl.
  - discriminate.
  - destruct (body s x) as [s' | e'] eqn:Hbody; cbn [mbind result_bind].
    + apply IH.
    + intros H. injection H as <-. eauto.
Qed.

(** X18.  A policy reserve that is returned is the larger of the present
    value of the future benefits less that of the future premiums and the
    regulatory floor, the coverage times the minimum reserve ratio of the
    product type (0.05 for an unlisted type): it is never below the floor.
    Whatever the valuation tables hold, the valuation raises no
    [KeyError]: a missing table, gender or age falls back to a default. *)
Theorem policy_reserve_never_below_floor (tables : ValuationTables)
    (policy : Policy) :
  RegulatoryStandards._calculate_policy_reserves tables policy
  <> Raise KeyError /\
  forall reserve,
    RegulatoryStandards._calculate_policy_reserves tables policy = Ok reserve ->
    default 0 (coverage_amount policy)
    * default 0.05
        (minimum_reserve_ratios
           !! default "term_life"%string (product_type policy))
    <= reserve /\
    exists future_benefits_pv future_premiums_pv,
      _calculate_future_benefits_pv tables policy = Ok future_benefits_pv /\
      _calculate_future_premiums_pv tables policy = Ok future_premiums_pv /\
      future_benefits_pv - future_premiums_pv <= reserve /\
      (reserve = future_benefits_pv - future_premiums_pv \/
       reserve
       = default 0 (coverage_amount policy)
         * default 0.05
             (minimum_reserve_ratios
                !! default "term_life"%string (product_type policy))).
Proof.
  assert (Hbenefits : forall e,
            _calculate_future_benefits_pv tables policy = Raise e ->
            e = ZeroDivisionError).
  { intros e. unfold _calculate_future_benefits_pv. intros H.
    apply for_each_raises in H as (s' & year & H).
    unfold future_benefits_step in H.
    destruct (py_div _ _) as [pv_factor | e'] eqn:Hdiv;
      cbn [mbind result_bind] in H.
    - destruct (String.eqb _ _); discriminate H.
    - injection H as <-. exact (py_div_raises _ _ _ Hdiv). }
  assert (Hpremiums : forall e,
            _calculate_future_premiums_pv tables policy = Raise e ->
            e = ZeroDivisionError).
  { intros e. unfold _calculate_future_premiums_pv.
    destruct (for_each _ _ _) as [st | e'] eqn:Hloop;
      cbn [mbind result_bind]; [discriminate|].
    intros H. injection H as <-.
    apply for_each_raises in Hloop as ([pv sp] & year & H).
    unfold future_premiums_step in H.
    destruct (py_div _ _) as [pv_factor | e''] eqn:Hdiv;
      cbn [mbind result_bind] in H; [discriminate H|].
    injection H as <-. exact (py_div_raises _ _ _ Hdiv). }
  unfold RegulatoryStandards._calculate_policy_reserves.
  destruct (_calculate_future_benefits_pv tables policy) as [fb | e] eqn:Hfb;
    cbn [mbind result_bind].
  2:{ split; [|discriminate].
      rewrite (Hbenefits e eq_refl). discriminate. }
  destruct (_calculate_future_premiums_pv tables policy) as [fp | e] eqn:Hfp;
    cbn [mbind result_bind].
  2:{ split; [|discriminate].
      rewrite (Hpremiums e eq_refl). discriminate. }
  split; [discriminate|].
  intros reserve Hreserve. injection Hreserve as <-.
  destruct (py_max_bounds (fb - fp)
              (default 0 (coverage_amount policy)
               * default 0.05
                   (minimum_reserve_ratios
                      !! default "term_life"%string (product_type policy))))
    as (H1 & H2 & H3).
  split; [exact H2|]. exists fb, fp. repeat split; assumption.
Qed.

(** A whole-life policy of 100,000 with no premium and no remaining year,
    valued on empty tables: the reserve is the floor, 15%. *)
Lemma policy_reserve_never_below_floor_witness :
  exists reserve,
    RegulatoryStandards._calculate_policy_reserves
      {| discount_rates_standard := None; valuation_CSO_2017 := None |}
      {| product_type := Some "whole_life"%string;
         coverage_amount := Some 100000; remaining_years := Some 0%Z;
         current_age := None; policy_gender := None;
         annual_premium := None |} = Ok reserve /\
    100000 * 0.15 <= reserve.
Proof.
  destruct (RegulatoryStandards._calculate_policy_reserves
              {| discount_rates_standard := None; valuation_CSO_2017 := None |}
              {| product_type := Some "whole_life"%string;
                 coverage_amount := Some 100000; remaining_years := Some 0%Z;
                 current_age := None; policy_gender := None;
                 annual_premium := None |})
    as [reserve | e] eqn:Hreserve;
    [|vm_compute in Hreserve; discriminate Hreserve].
  exists reserve. split; [reflexivity|].
  destruct (policy_reserve_never_below_floor
              {| discount_rates_standard := None; valuation_CSO_2017 := None |}
              {| product_type := Some "whole_life"%string;
                 coverage_amount := Some 100000; remaining_years := Some 0%Z;
                 current_age := None; policy_gender := None;
                 annual_premium := None |})
    as (_ & Hfloor).
  exact (proj1 (Hfloor reserve Hreserve)).
Defined.

(** X19.  The cap of the underwriting engine keeps every assessment
    that is returned within the regulatory limit on the risk multiplier:
    the underwriting compliance check of an assessment's overall
    multiplier passes exactly when the coverage is at most 10,000,000. *)
Theorem assessments_meet_multiplier_limit (rules : UnderwritingRules)
    (a : ApplicantData) (product_type : string) (coverage : Z)
    (insured : Q) (ra : RiskAssessment) :
  perform_comprehensive_risk_assessment rules a product_type coverage = Ok ra ->
  (_check_underwriting_compliance
     {| summary_overall_risk_multiplier := Some (overall_risk_multiplier ra);
        summary_coverage_amount := Some insured |} = true
   <-> insured <= 10000000).
Proof.
  intros Hra.
  destruct (perform_comprehensive_risk_assessment_spec rules a product_type
              coverage) as (mr & mf & fr & ff & _ & _ & Hspec).
  rewrite Hspec in Hra. injection Hra as <-. cbn.
  unfold _check_underwriting_compliance, maximum_risk_multiplier. cbn.
  match goal with
  | |- context [Qltb 10.0 ?m] =>
      assert (Hcap : m <= 10.0)
        by (unfold _combine_risk_factors; rewrite py_min_Qmin;
            apply Q.le_min_r);
      destruct (Qltb_spec 10.0 m); [lra|]
  end.
  destruct (Qleb_spec insured 10000000); split; auto; discriminate.
Qed.

Lemma assessments_meet_multiplier_limit_witness :
  exists ra,
    perform_comprehensive_risk_assessment Sample.rules Sample.sample_applicant
      "term_life" 500000 = Ok ra /\
    _check_underwriting_compliance
      {| summary_overall_risk_multiplier := Some (overall_risk_multiplier ra);
         summary_coverage_amount := Some 500000 |} = true.
Proof.
  destruct (perform_comprehensive_risk_assessment Sample.rules
              Sample.sample_applicant "term_life" 500000)
    as [ra | e] eqn:Hra; [|vm_compute in Hra; discriminate Hra].
  exists ra. split; [reflexivity|].
  apply (assessments_meet_multiplier_limit Sample.rules
           Sample.sample_applicant "term_life" 500000 500000 ra Hra).
  discriminate.
Defined.

(** ** product_manager.py *)

Lemma declined_has_no_coverage (overall_risk financial_risk : Q)
    (coverage : Z) (risk_factors : list RiskFactor) :
  fst (_make_underwriting_decision overall_risk financial_risk coverage
         risk_factors) = DECLINED ->
  snd (_make_underwriting_decision overall_risk financial_risk coverage
         risk_factors) = 0%Z.
Proof.
  unfold _make_underwriting_decision.
  repeat match goal with
         | |- context [Qleb ?x ?y] => destruct (Qleb x y)
         end; cbn [fst snd]; intros H; try discriminate H; reflexivity.
Qed.

Lemma assessment_declined_has_no_coverage (rules : UnderwritingRules)
    (a : ApplicantData) (product_type : string) (coverage : Z)
    (ra : RiskAssessment) :
  perform_comprehensive_risk_assessment rules a product_type coverage = Ok ra ->
  underwriting_decision ra = DECLINED -> maximum_coverage ra = 0%Z.
Proof.
  intros Hra.
  destruct (perform_comprehensive_risk_assessment_spec rules a product_type
              coverage) as (mr & mf & fr & ff & _ & _ & Hspec).
  rewrite Hspec in Hra. injection Hra as <-. cbn.
  apply declined_has_no_coverage.
Qed.

(** X20.  A declined application (for a non-negative coverage) is not
    priced: the life quote is the declined quote, with premiums, loads
    and reserves of 0.0 and the overall multiplier of the assessment,
    whatever the mortality tables and the product's bounds are; only a
    product missing from the definitions turns it into a [KeyError]. *)
Theorem declined_application_is_not_priced (tables : MortalityTables)
    (rules : UnderwritingRules) (definitions : ProductDefinitions)
    (a : ApplicantData) (coverage term : Z) (product_type : string)
    (ra : RiskAssessment) :
  perform_comprehensive_risk_assessment rules a product_type coverage = Ok ra ->
  underwriting_decision ra = DECLINED ->
  (0 <= coverage)%Z ->
  (forall product,
     products definitions !! product_type = Some product ->
     generate_life_insurance_quote tables rules definitions a coverage term
       product_type
     = Ok {| quote_product_type := product_type;
             quote_status := Declined;
             premium_quote :=
               {| gross_premium := 0.0; net_premium := 0.0;
                  quote_expense_load := 0.0; quote_profit_margin := 0.0;
                  quote_commission := 0.0; reserves := 0.0;
                  risk_multiplier := overall_risk_multiplier ra;
                  breakdown := [("status"%string, Text "declined")] |};
             risk_assessment := ra |}) /\
  (products definitions !! product_type = None ->
   generate_life_insurance_quote tables rules definitions a coverage term
     product_type = Raise KeyError).
Proof.
  intros Hra Hdeclined Hcov.
  pose proof (assessment_declined_has_no_coverage _ _ _ _ _ Hra Hdeclined)
    as Hmax.
  unfold generate_life_insurance_quote. rewrite Hra.
  cbn [mbind result_bind]. rewrite Hmax.
  replace (Z.min coverage 0) with 0%Z by lia. cbn [Z.eqb].
  unfold _create_declined_quote, subscript.
  split.
  - intros product ->. reflexivity.
  - intros ->. reflexivity.
Qed.

(** The sample applicant asks for 6,000,000 of term life: declined for
    the net worth, and quoted as declined although the product stops
    at 5,000,000. *)
Lemma declined_application_is_not_priced_witness :
  exists quote,
    generate_life_insurance_quote Sample.mortality_tables Sample.rules
      Sample.product_definitions Sample.sample_applicant 6000000 20
      "term_life" = Ok quote /\
    quote_status quote = Declined /\
    gross_premium (premium_quote quote) = 0.0.
Proof.
  destruct (perform_comprehensive_risk_assessment Sample.rules
              Sample.sample_applicant "term_life" 6000000)
    as [ra | e] eqn:Hra; [|vm_compute in Hra; discriminate Hra].
  destruct (declined_application_is_not_priced Sample.mortality_tables
              Sample.rules Sample.product_definitions Sample.sample_applicant
              6000000 20 "term_life" ra Hra) as [Hquote _].
  - vm_compute in Hra. injection Hra as <-. reflexivity.
  - lia.
  - eexists. split; [eapply Hquote; vm_compute; reflexivity|].
    split; reflexivity.
Defined.

(** X21.  An offered life quote compounds two risk multipliers: its
    gross premium is the net premium times the calculator's own risk
    multiplier of the applicant's conditions, smoking status and
    activities, times one plus the product's loads, times the overall
    multiplier of the underwriting assessment; the quote reports the
    overall multiplier as its risk multiplier, and its breakdown keeps the
    figures from before the overall multiplier was applied. *)
Theorem offered_life_quote_compounds_multipliers (tables : MortalityTables)
    (rules : UnderwritingRules) (definitions : ProductDefinitions)
    (a : ApplicantData) (coverage term : Z) (product_type : string)
    (product : Product) (quote : ProductQuote) :
  products definitions !! product_type = Some product ->
  generate_life_insurance_quote tables rules definitions a coverage term
    product_type = Ok quote ->
  quote_status quote = Offered ->
  perform_comprehensive_risk_assessment rules a product_type coverage
  = Ok (risk_assessment quote) /\
  risk_multiplier (premium_quote quote)
  = overall_risk_multiplier (risk_assessment quote) /\
  gross_premium (premium_quote quote)
  == net_premium (premium_quote quote)
     * _calculate_risk_multiplier rules (life_risk_factors a)
     * (1 + expense_load product + profit_margin product + commission product)
     * overall_risk_multiplier (risk_assessment quote) /\
  breakdown_number (breakdown (premium_quote quote)) "adjusted_net_premium"
  = net_premium (premium_quote quote)
    * _calculate_risk_multiplier rules (life_risk_factors a).
Proof.
  intros Hproduct Hquote Hoffered.
  unfold generate_life_insurance_quote in Hquote.
  destruct (perform_comprehensive_risk_assessment rules a product_type coverage)
    as [ra | e]; cbn [mbind result_bind] in Hquote; [|discriminate].
  destruct (Z.min coverage (maximum_coverage ra) =? 0)%Z.
  { unfold _create_declined_quote, subscript in Hquote.
    rewrite Hproduct in Hquote. cbn [mbind result_bind] in Hquote.
    injection Hquote as <-. discriminate Hoffered. }
  match type of Hquote with
  | context [calculate_life_insurance_premium ?t ?r ?d ?ag ?g ?c ?tm ?pt ?rf] =>
      destruct (calculate_life_insurance_premium t r d ag g c tm pt rf)
        as [pq | e] eqn:Hcalc
  end; cbn [mbind result_bind] in Hquote; [|discriminate].
  unfold subscript in Hquote. rewrite Hproduct in Hquote.
  cbn [mbind result_bind] in Hquote. injection Hquote as <-.
  cbn [risk_assessment premium_quote apply_risk_adjustment gross_premium
       net_premium risk_multiplier breakdown].
  apply (calculate_life_insurance_premium_inv _ _ _ _ _ _ _ _ _ product)
    in Hcalc as (Hrisk & Hgross & Hadjusted); [|exact Hproduct].
  split; [reflexivity|]. split; [reflexivity|]. split.
  - rewrite Hgross, Hrisk. reflexivity.
  - rewrite Hadjusted, Hrisk. reflexivity.
Qed.

(** The sample applicant, 500,000 of term life over two years: rated
    1.2375 by the underwriter and 1.0 by the calculator, loads of 30%. *)
Lemma offered_life_quote_compounds_multipliers_witness :
  exists quote,
    generate_life_insurance_quote Sample.mortality_tables Sample.rules
      Sample.product_definitions Sample.sample_applicant 500000 2 "term_life"
    = Ok quote /\
    quote_status quote = Offered /\
    gross_premium (premium_quote quote)
    == net_premium (premium_quote quote) * 1.0 * 1.3 * 1.2375.
Proof.
  destruct (generate_life_insurance_quote Sample.mortality_tables Sample.rules
              Sample.product_definitions Sample.sample_applicant 500000 2
              "term_life") as [quote | e] eqn:Hquote;
    [|vm_compute in Hquote; discriminate Hquote].
  assert (Hoffered : quote_status quote = Offered).
  { pose proof Hquote as Hcopy. vm_compute in Hcopy.
    injection Hcopy as <-. reflexivity. }
  exists quote. split; [reflexivity|]. split; [exact Hoffered|].
  destruct (offered_life_quote_compounds_multipliers Sample.mortality_tables
              Sample.rules Sample.product_definitions Sample.sample_applicant
              500000 2 "term_life"
              {| expense_load := 0.15; profit_margin := 0.1;
                 commission := 0.05; min_age := 18; max_age := 75;
                 min_coverage := Some 50000%Z;
                 max_coverage := Some 5000000%Z;
                 terms := Some [0; 2; 10; 20; 30]%Z;
                 min_monthly_benefit := None; max_monthly_benefit := None |}
              quote eq_refl Hquote Hoffered) as (Hra & _ & Hgross & _).
  rewrite Hgross.
  assert (Hoverall : overall_risk_multiplier (risk_assessment quote) == 1.2375).
  { clear Hgross Hquote Hoffered. destruct quote as [pt st pq ra].
    cbn [risk_assessment] in *. vm_compute in Hra.
    injection Hra as <-. reflexivity. }
  assert (Hcalc : _calculate_risk_multiplier Sample.rules
                    (life_risk_factors Sample.sample_applicant) = 1.0)
    by reflexivity.
  rewrite Hoverall, Hcalc. cbn [expense_load profit_margin commission]. ring.
Defined.

Lemma multi_quote_loop (tables : MortalityTables)
    (morbidity : MorbidityTables) (rules : UnderwritingRules)
    (definitions : ProductDefinitions)
    (ci_conditions : option (gmap string (list (Z * gmap string Q))))
    (covered : option (list string)) (a : ApplicantData)
    (requests : list ProductRequest) (quotes : list ProductQuote) :
  Forall (fun request => request_type request <> None) requests ->
  for_each requests
    (multi_quote_step tables morbidity rules definitions ci_conditions
       covered a) quotes
  = Ok (quotes
        ++ omap (quote_of_request tables morbidity rules definitions
                   ci_conditions covered a) requests).
Proof.
  intros Hall. revert quotes.
  induction Hall as [| request rest Htype _ IH]; intros quotes;
    cbn [for_each omap list_omap].
  - now rewrite app_nil_r.
  - assert (Hstep :
              multi_quote_step tables morbidity rules definitions
                ci_conditions covered a quotes request
              = Ok (quotes
                    ++ omap (quote_of_request tables morbidity rules
                               definitions ci_conditions covered a)
                         [request])).
    { unfold multi_quote_step, quote_of_request, required.
      cbn [omap list_omap].
      destruct (request_type request) as [t|]; [|congruence].
      cbn [mbind result_bind].
      destruct (quote_for_request tables morbidity rules definitions
                  ci_conditions covered a t request) as [[quote | e] |];
        rewrite ?app_nil_r; reflexivity. }
    rewrite Hstep. cbn [mbind result_bind].
    rewrite IH, <- app_assoc, <- omap_app. reflexivity.
Qed.

(** X22.  When every request names its product type, the multi-product
    quote returns, in the order of the requests, the quote of every
    request whose quote is produced, and nothing else: a request whose
    quote raises (a missing amount, a rejected input, a missing table) and
    a request of an unknown product type are skipped, and the quotes of
    the other requests stay in place.  A request without a type, after
    requests that have one, aborts the whole call with a [KeyError]. *)
Theorem multi_quote_skips_failures (tables : MortalityTables)
    (morbidity : MorbidityTables) (rules : UnderwritingRules)
    (definitions : ProductDefinitions)
    (ci_conditions : option (gmap string (list (Z * gmap string Q))))
    (covered : option (list string)) (a : ApplicantData) :
  (forall requests : list ProductRequest,
     Forall (fun request => request_type request <> None) requests ->
     generate_multi_product_quote tables morbidity rules definitions
       ci_conditions covered a requests
     = Ok (omap (quote_of_request tables morbidity rules definitions
                   ci_conditions covered a) requests)) /\
  (forall (before after : list ProductRequest) (request : ProductRequest)
          (t : string),
     Forall (fun request => request_type request <> None) before ->
     Forall (fun request => request_type request <> None) after ->
     request_type request = Some t ->
     exists quotes_before quotes_after,
       generate_multi_product_quote tables morbidity rules definitions
         ci_conditions covered a before = Ok quotes_before /\
       generate_multi_product_quote tables morbidity rules definitions
         ci_conditions covered a after = Ok quotes_after /\
       generate_multi_product_quote tables morbidity rules definitions
         ci_conditions covered a (before ++ request :: after)
       = Ok (quotes_before
             ++ match quote_for_request tables morbidity rules definitions
                        ci_conditions covered a t request with
                | Some (Ok quote) => [quote]
                | Some (Raise _) => []
                | None => []
                end
             ++ quotes_after)) /\
  (forall (before after : list ProductRequest) (request : ProductRequest),
     Forall (fun request => request_type request <> None) before ->
     request_type request = None ->
     generate_multi_product_quote tables morbidity rules definitions
       ci_conditions covered a (before ++ request :: after) = Raise KeyError).
Proof.
  unfold generate_multi_product_quote. split; [|split].
  - intros requests Hall. now rewrite multi_quote_loop.
  - intros before after request t Hbefore Hafter Htype.
    eexists _, _.
    split; [now rewrite multi_quote_loop|].
    split; [now rewrite multi_quote_loop|].
    rewrite multi_quote_loop.
    2:{ apply Forall_app. split; [exact Hbefore|].
        constructor; [congruence | exact Hafter]. }
    cbn [app]. rewrite omap_app. cbn [omap list_omap].
    unfold quote_of_request at 2. rewrite Htype.
    destruct (quote_for_request tables morbidity rules definitions
                ci_conditions covered a t request) as [[quote | e] |];
      reflexivity.
  - intros before after request Hall Hnone.
    rewrite for_each_app, multi_quote_loop by exact Hall.
    cbn [mbind result_bind for_each].
    unfold multi_quote_step, required. rewrite Hnone. reflexivity.
Qed.

(** Three requests for the sample applicant: a term life request without
    its coverage amount, an unknown product, and a two-year term life
    request; only the last is quoted, and it is offered. *)
Lemma multi_quote_skips_failures_witness :
  exists quotes,
    generate_multi_product_quote Sample.mortality_tables
      Sample.morbidity_tables Sample.rules Sample.product_definitions None None
      Sample.sample_applicant
      [ {| request_type := Some "term_life"%string;
           request_coverage_amount := None; request_policy_term := None;
           request_monthly_benefit := None; request_benefit_period := None;
           request_waiting_period := None |};
        {| request_type := Some "pet_insurance"%string;
           request_coverage_amount := Some 1000%Z; request_policy_term := None;
           request_monthly_benefit := None; request_benefit_period := None;
           request_waiting_period := None |};
        {| request_type := Some "term_life"%string;
           request_coverage_amount := Some 500000%Z;
           request_policy_term := Some 2%Z;
           request_monthly_benefit := None; request_benefit_period := None;
           request_waiting_period := None |} ] = Ok quotes /\
    map quote_product_type quotes = ["term_life"%string] /\
    map quote_status quotes = [Offered].
Proof.
  eexists. split.
  - apply (proj1 (multi_quote_skips_failures Sample.mortality_tables
                    Sample.morbidity_tables Sample.rules
                    Sample.product_definitions None None
                    Sample.sample_applicant)).
    repeat constructor; discriminate.
  - split; vm_compute; reflexivity.
Defined.

(** Inversion of a bind whose result is [Ok]. *)
Tactic Notation "bind_inv" hyp(H) "as" ident(x) ident(E) :=
  match type of H with
  | mbind _ ?m = Ok _ =>
      destruct m as [x | ?] eqn:E; cbn [mbind result_bind] in H;
      [|discriminate H]
  end.

(** X23.  An offered critical illness quote applies the overall
    multiplier of the assessment once: its gross premium is the net
    premium times one plus the product's loads times the overall
    multiplier, which it reports as its risk multiplier; its reserves are
    the approved coverage times the critical illness reserve factor, which
    the definitions must hold (there is no default). *)
Theorem critical_illness_quote_applies_overall_once (tables : MortalityTables)
    (morbidity : MorbidityTables) (rules : UnderwritingRules)
    (definitions : ProductDefinitions)
    (ci_conditions : option (gmap string (list (Z * gmap string Q))))
    (covered : option (list string)) (a : ApplicantData) (coverage : Z)
    (quote : ProductQuote) :
  generate_critical_illness_quote tables rules definitions ci_conditions
    covered a coverage = Ok quote ->
  quote_status quote = Offered ->
  exists product reserve_factor,
    products definitions !! "critical_illness"%string = Some product /\
    reserve_factors definitions !! "critical_illness"%string
    = Some reserve_factor /\
    perform_comprehensive_risk_assessment rules a "critical_illness" coverage
    = Ok (risk_assessment quote) /\
    risk_multiplier (premium_quote quote)
    = overall_risk_multiplier (risk_assessment quote) /\
    gross_premium (premium_quote quote)
    = net_premium (premium_quote quote)
      * (1 + expense_load product + profit_margin product + commission product)
      * overall_risk_multiplier (risk_assessment quote) /\
    reserves (premium_quote quote)
    = inject_Z (Z.min coverage (maximum_coverage (risk_assessment quote)))
      * reserve_factor.
Proof.
  intros Hquote Hoffered.
  unfold generate_critical_illness_quote in Hquote.
  bind_inv Hquote as ra Hra.
  destruct (Z.min coverage (maximum_coverage ra) =? 0)%Z.
  { unfold _create_declined_quote in Hquote. bind_inv Hquote as p Hp.
    injection Hquote as <-. cbn in Hoffered. discriminate Hoffered. }
  bind_inv Hquote as pq Hpremium.
  bind_inv Hquote as u Hcovered. bind_inv Hquote as p Hp.
  injection Hquote as <-.
  cbn [risk_assessment premium_quote].
  unfold _calculate_critical_illness_premium in Hpremium.
  bind_inv Hpremium as product Hproduct.
  bind_inv Hpremium as conditions Hconditions.
  bind_inv Hpremium as cancer Hcancer.
  bind_inv Hpremium as closest Hclosest.
  bind_inv Hpremium as covered_list Hlist.
  bind_inv Hpremium as total Htotal.
  bind_inv Hpremium as benefit_pv Hbenefit.
  bind_inv Hpremium as premium_pv Hppv.
  bind_inv Hpremium as net Hnet.
  bind_inv Hpremium as reserve_factor Hfactor.
  injection Hpremium as <-.
  unfold subscript in Hproduct, Hfactor.
  destruct (products definitions !! "critical_illness"%string) as [product'|];
    [|discriminate Hproduct].
  injection Hproduct as ->.
  destruct (reserve_factors definitions !! "critical_illness"%string)
    as [reserve_factor'|]; [|discriminate Hfactor].
  injection Hfactor as ->.
  eexists _, _. repeat split; reflexivity.
Qed.

(** The sample applicant, 100,000 of critical illness cover on the
    critical illness sample: loads of 40%, reserve factor 0.1. *)
Lemma critical_illness_quote_applies_overall_once_witness :
  exists quote,
    generate_critical_illness_quote CriticalIllnessSample.mortality_tables
      Sample.rules CriticalIllnessSample.product_definitions
      (Some CriticalIllnessSample.conditions)
      (Some CriticalIllnessSample.covered_conditions)
      Sample.sample_applicant 100000 = Ok quote /\
    quote_status quote = Offered /\
    gross_premium (premium_quote quote)
    == net_premium (premium_quote quote) * 1.4 * 1.2375 /\
    reserves (premium_quote quote) == 10000.
Proof.
  destruct (generate_critical_illness_quote
              CriticalIllnessSample.mortality_tables Sample.rules
              CriticalIllnessSample.product_definitions
              (Some CriticalIllnessSample.conditions)
              (Some CriticalIllnessSample.covered_conditions)
              Sample.sample_applicant 100000) as [quote | e] eqn:Hquote;
    [|vm_compute in Hquote; discriminate Hquote].
  assert (Hoffered : quote_status quote = Offered).
  { pose proof Hquote as Hcopy. vm_compute in Hcopy.
    injection Hcopy as <-. reflexivity. }
  exists quote. split; [reflexivity|]. split; [exact Hoffered|].
  destruct (critical_illness_quote_applies_overall_once
              CriticalIllnessSample.mortality_tables Sample.morbidity_tables
              Sample.rules CriticalIllnessSample.product_definitions
              (Some CriticalIllnessSample.conditions)
              (Some CriticalIllnessSample.covered_conditions)
              Sample.sample_applicant 100000 quote Hquote Hoffered)
    as (product & reserve_factor & Hproduct & Hfactor & Hra & _ & Hgross
        & Hreserves).
  vm_compute in Hproduct. injection Hproduct as <-.
  vm_compute in Hfactor. injection Hfactor as <-.
  rewrite Hgross, Hreserves.
  destruct quote as [pt st pq ra]. cbn [risk_assessment premium_quote] in *.
  vm_compute in Hra. injection Hra as <-.
  split.
  - cbn [expense_load profit_margin commission overall_risk_multiplier]. ring.
  - reflexivity.
Defined.


